(** * Model serialization and paging (nncase codegen): a shallow embedding

    The development follows [codegen.cpp] (functions [call_emitter],
    [register_emitter], [disable_emitter], [write_pages], [gencode]) and
    [runtime/paging.h] (the paging constants and the two page records).

    Conventions.
    - Fixed-width unsigned integers are values of [Z]; every arithmetic
      operation that the C++ performs on a [uint32_t] or [uint64_t] is
      followed by [wrap32] or [wrap64].
    - Stream positions ([std::streampos], [std::streamoff]) are unbounded
      [Z]: signed overflow on them is undefined in the source.
    - A C++ exception, a failed [assert] and a read outside a vector end
      the run; they are the [Fatal] outcome, which keeps the writer state
      reached at that point.
    - A copy that runs past the end of a buffer leaves the buffer as it is
      beyond its last byte: what is copied there does not belong to the
      buffer, and the run goes on. *)

From Stdlib Require Import ZArith Lia.
From stdpp Require Import base option list gmap.

Open Scope Z_scope.

(** ** Fixed-width integers and bytes *)

Definition wrap32 (z : Z) : Z := z mod 2 ^ 32.
Definition wrap64 (z : Z) : Z := z mod 2 ^ 64.

Definition is_uint32 (z : Z) : Prop := 0 <= z < 2 ^ 32.

#[global] Instance is_uint32_dec z : Decision (is_uint32 z).
Proof. unfold is_uint32. apply _. Defined.

Abbreviation byte := Byte.byte.

Definition zero_byte : byte := Byte.x00.

Definition byte_of_Z (z : Z) : byte :=
  default zero_byte (Byte.of_N (Z.to_N (z mod 256))).

(** Little-endian image of the low [n] bytes of [v]. *)
Fixpoint le_bytes (n : nat) (v : Z) : list byte :=
  match n with
  | O => []
  | S k => byte_of_Z v :: le_bytes k (v / 256)
  end.

(** Records written verbatim ([writer.write(T)] copies [sizeof(T)] bytes). *)
Class Blittable (T : Type) := {
  sizeof : Z;
  to_bytes : T -> list byte
}.
Arguments sizeof T {_}.

(** ** The binary writer and the outcome of a run *)

(** Modelled from the spec: [runtime::binary_writer] is declared in a header
    that is not part of the available sources.  Section 4.1 describes it as a
    positioned, seekable byte sink over a backing stream.  The writer only
    refers to its stream, so a writer passed by value (as [write_pages] takes
    it) still writes to the same stream: the record is the state of that
    stream, its put position and the bytes stored so far. *)
Record binary_writer := {
  position : Z;
  stream : gmap Z byte
}.

Inductive error :=
| EmitterNotFound (opcode : Z)   (* std::runtime_error thrown by call_emitter *)
| OutOfRange                     (* std::out_of_range from a checked .at() *)
| IndexOutOfBounds               (* unchecked read outside a vector *)
| AssertionFailed.               (* a failed assert *)

(** A run either returns or ends with an error; the error keeps the state
    of the stream at that moment. *)
Inductive result (A : Type) :=
| Ok (a : A)
| Fatal (e : error) (w : binary_writer).
Arguments Ok {A} a.
Arguments Fatal {A} e w.

#[global] Instance result_ret : MRet result := fun A a => Ok a.

#[global] Instance result_bind : MBind result := fun A B k m =>
  match m with
  | Ok a => k a
  | Fatal e w => Fatal e w
  end.

(** Modelled from the spec: the stream write under the absent
    [binary_writer]; the bytes go to consecutive offsets from [p] and replace
    what was stored there. *)
Fixpoint store_bytes (p : Z) (bs : list byte) (m : gmap Z byte) : gmap Z byte :=
  match bs with
  | [] => m
  | b :: bs' => store_bytes (p + 1) bs' (<[p := b]> m)
  end.

(** Modelled from the spec: a write of the absent [binary_writer] stores the
    bytes at the current position and advances the position past them. *)
Definition write_bytes (bs : list byte) (w : binary_writer) : binary_writer :=
  {| position := position w + Z.of_nat (length bs);
     stream := store_bytes (position w) bs (stream w) |}.

(** Modelled from the spec: [binary_writer::write(T)], absent from the
    sources, writes a fixed-layout record verbatim (section 4.1). *)
Definition write {T} `{Blittable T} (x : T) (w : binary_writer) : binary_writer :=
  write_bytes (to_bytes x) w.

(** Modelled from the spec: [binary_writer::write_array], absent from the
    sources, writes the records of a sequence one after the other; the
    counts are kept in the model header (section 6), so no count is written
    in front. *)
Definition write_array {T} `{Blittable T} (xs : list T) (w : binary_writer)
  : binary_writer :=
  write_bytes (concat (to_bytes <$> xs)) w.

(** Modelled from the spec: [binary_writer::position(pos)], absent from the
    sources, sets the current byte offset (section 4.1). *)
Definition set_position (pos : Z) (w : binary_writer) : binary_writer :=
  {| position := pos; stream := stream w |}.

(** Modelled from the spec: the number of bytes that
    [binary_writer::align_position], absent from the sources, has to add to
    reach a multiple of the alignment. *)
Definition align_padding (alignment pos : Z) : Z :=
  (alignment - pos mod alignment) mod alignment.

(** Modelled from the spec: [binary_writer::align_position], absent from the
    sources; section 4.1 has it pad with zero bytes until the position is a
    multiple of the alignment. *)
Definition align_position (alignment : Z) (w : binary_writer) : binary_writer :=
  write_bytes (replicate (Z.to_nat (align_padding alignment (position w))) zero_byte) w.

(** ** runtime/paging.h *)

Definition KM_ENABLE_PAGING : Z := 2.
Definition KM_MAX_PAGES : Z := 8.
Definition TARGET_PAGE_SIZE : Z := 2300000.

Inductive memory_page_type := persistent | swap.

Definition memory_page_type_value (t : memory_page_type) : Z :=
  match t with persistent => 0 | swap => 1 end.

#[global] Instance memory_page_type_eq_dec : EqDecision memory_page_type.
Proof. solve_decision. Defined.

Record memory_page := {
  index : Z;                 (* uint32_t *)
  type : memory_page_type;   (* enum : uint32_t *)
  begin : Z;                 (* uint32_t *)
  end_ : Z;                  (* uint32_t, inclusive *)
  offset_bytes : Z;          (* uint64_t *)
  size_bytes : Z             (* uint64_t *)
}.

Record memory_page_table := {
  num_pages : Z;             (* uint32_t *)
  max_pages : Z;             (* uint32_t *)
  body_buffer_size : Z       (* uint64_t *)
}.

#[global] Instance memory_page_blittable : Blittable memory_page := {
  sizeof := 32;
  to_bytes p :=
    le_bytes 4 (index p) ++ le_bytes 4 (memory_page_type_value (type p)) ++
    le_bytes 4 (begin p) ++ le_bytes 4 (end_ p) ++
    le_bytes 8 (offset_bytes p) ++ le_bytes 8 (size_bytes p)
}.

#[global] Instance memory_page_table_blittable : Blittable memory_page_table := {
  sizeof := 16;
  to_bytes t :=
    le_bytes 4 (num_pages t) ++ le_bytes 4 (max_pages t) ++
    le_bytes 8 (body_buffer_size t)
}.

(** ** Node headers

    [node_header] comes from [runtime/model.h]; the code builds it as
    [node_header { body->opcode(), (uint32_t)body_size }] and reads its
    [body_size] field. *)
Record node_header := {
  opcode : Z;      (* runtime_opcode *)
  body_size : Z    (* uint32_t *)
}.

(** ** Graph nodes, allocations and the code generation context

    The classes [llir::node], [llir::output_connector] and
    [scheduler::memory_allocation] are declared outside the available
    sources; the records keep what [gencode] and [get_allocation] read from
    them.  A connector is identified by its address ([conn_id]), the key of
    the allocation map. *)
Record memory_allocation := {
  alloc_type : Z;    (* memory_type_t *)
  alloc_start : Z;   (* size_t *)
  alloc_size : Z     (* size_t *)
}.

Record memory_range := {
  mr_memory_type : Z;
  mr_datatype : Z;
  mr_start : Z;      (* uint32_t *)
  mr_size : Z        (* uint32_t *)
}.

Definition runtime_shape_t := list Z.

Record output_connector := {
  conn_id : Z;
  conn_type : Z;                  (* datatype_t *)
  conn_shape : runtime_shape_t
}.

Record node := {
  runtime_opcode : Z;
  node_outputs : list output_connector;
  node_inputs : list (option output_connector);   (* input_at(i).connection() *)
  constant_data : list byte                       (* constant::data() *)
}.

Record node_body := {
  body_opcode : Z;           (* node_body::opcode() *)
  body_bytes : list byte     (* what node_body::serialize writes *)
}.

Record codegen_context := {
  writer_ : binary_writer;
  constant_usage : Z;
  memory_usage : Z;
  allocations_ : gmap Z memory_allocation
}.

Definition with_writer (context : codegen_context) (w : binary_writer)
  : codegen_context :=
  {| writer_ := w;
     constant_usage := constant_usage context;
     memory_usage := memory_usage context;
     allocations_ := allocations_ context |}.

(** The fields that [gencode] assigns in the [model_header] of
    [runtime/model.h]; all of them are 32-bit unsigned. *)
Record model_header := {
  identifier : Z;
  version : Z;
  flags : Z;
  target : Z;
  constants : Z;
  main_mem : Z;
  nodes : Z;
  inputs : Z;
  outputs : Z
}.

(** ** The page planner: [write_pages] *)

(** One iteration of the loop of [write_pages]: the test
    [headers[node].body_size + current.size_bytes > TARGET_PAGE_SIZE] is
    carried out in [uint64_t]. *)
Definition plan_step (current : memory_page) (pages : list memory_page)
    (node : Z) (h : node_header) : memory_page * list memory_page :=
  if wrap64 (body_size h + size_bytes current) >? TARGET_PAGE_SIZE then
    ({| index := wrap32 (index current + 1);
        type := swap;
        begin := node;
        end_ := node;
        offset_bytes := wrap64 (offset_bytes current + size_bytes current);
        size_bytes := body_size h |},
     pages ++ [current])
  else
    ({| index := index current;
        type := type current;
        begin := begin current;
        end_ := node;
        offset_bytes := offset_bytes current;
        size_bytes := wrap64 (size_bytes current + body_size h) |},
     pages).

(** [for (uint32_t node = 1; node < headers.size(); node++)]: [rest] holds
    [headers[node..]].  The counter is a [uint32_t]; on a vector of [2^32] or
    more headers it would wrap and the source loop would not end, so the
    results below are stated for shorter vectors. *)
Fixpoint plan_loop (rest : list node_header) (node : Z)
    (current : memory_page) (pages : list memory_page)
  : memory_page * list memory_page :=
  match rest with
  | [] => (current, pages)
  | h :: rest' =>
      let '(current', pages') := plan_step current pages node h in
      plan_loop rest' (wrap32 (node + 1)) current' pages'
  end.

(** Lines 80-113: the vector [pages] after the last [emplace_back].
    [headers[0]] is an unchecked access. *)
Definition plan_pages (w : binary_writer) (headers : list node_header)
  : result (list memory_page) :=
  match headers !! 0%nat with
  | None => Fatal IndexOutOfBounds w
  | Some h0 =>
      let current :=
        {| index := 0; type := persistent; begin := 0; end_ := 0;
           offset_bytes := 0; size_bytes := body_size h0 |} in
      let '(current', pages) := plan_loop (drop 1 headers) 1 current [] in
      Ok (pages ++ [current'])
  end.

(** Lines 117-126: the two accumulators after the loop over [pages]. *)
Definition working_set_step (acc : Z * Z) (page : memory_page) : Z * Z :=
  let '(working_size, largest_swap) := acc in
  match type page with
  | persistent => (wrap64 (working_size + size_bytes page), largest_swap)
  | swap => (working_size, Z.max largest_swap (size_bytes page))
  end.

(** Lines 126-132: the table that is written. *)
Definition make_table (pages : list memory_page) : memory_page_table :=
  let '(working_size, largest_swap) := foldl working_set_step (0, 0) pages in
  let working_size := wrap64 (working_size + largest_swap) in
  {| num_pages := wrap32 (Z.of_nat (length pages));
     max_pages := KM_MAX_PAGES;
     body_buffer_size := working_size |}.

(** [write_pages]: plan, check the page count, then write the table and the
    pages.  The [assert] is taken as active (a build without [NDEBUG]); the
    [nodes] argument is unused by the source, and the lines printed to
    [std::cout] are left out. *)
Definition write_pages (writer : binary_writer)
    (headers : list node_header) (nodes : list node) : result binary_writer :=
  pages ← plan_pages writer headers;
  if Z.of_nat (length pages) <=? KM_MAX_PAGES then
    let table := make_table pages in
    let writer := write table writer in
    Ok (foldl (fun wr page => write page wr) writer pages)
  else Fatal AssertionFailed writer.

(** ** The emitter registry *)

(** [emitter_t]: a function from a node and the context to a body that may
    be null. *)
Abbreviation emitter_t := (node -> codegen_context -> option node_body).

(** The two file-level maps [g_emitters] and [g_disabled_emitters]. *)
Record registry := {
  g_emitters : gmap Z emitter_t;
  g_disabled_emitters : gset Z
}.

(** [unordered_map::emplace] keeps an entry that is already present. *)
Definition register_emitter (opcode : Z) (emitter : emitter_t) (G : registry)
  : registry :=
  {| g_emitters :=
       match g_emitters G !! opcode with
       | Some _ => g_emitters G
       | None => <[opcode := emitter]> (g_emitters G)
       end;
     g_disabled_emitters := g_disabled_emitters G |}.

Definition disable_emitter (opcode : Z) (G : registry) : registry :=
  {| g_emitters := g_emitters G;
     g_disabled_emitters := {[opcode]} ∪ g_disabled_emitters G |}.

Definition is_disabled (G : registry) (opcode : Z) : bool :=
  bool_decide (opcode ∈ g_disabled_emitters G).

(** [call_emitter]: [None] is the [nullptr] result. *)
Definition call_emitter (G : registry) (n : node) (context : codegen_context)
  : result (option node_body) :=
  let opcode := runtime_opcode n in
  match g_emitters G !! opcode with
  | None =>
      if is_disabled G opcode then Ok None
      else Fatal (EmitterNotFound opcode) (writer_ context)
  | Some emitter => Ok (emitter n context)
  end.

(** [codegen_context::get_allocation]: [allocations_.at(&conn)] throws when
    the connector has no allocation. *)
Definition get_allocation (context : codegen_context) (conn : output_connector)
  : result memory_range :=
  match allocations_ context !! conn_id conn with
  | None => Fatal OutOfRange (writer_ context)
  | Some alloc =>
      Ok {| mr_memory_type := alloc_type alloc;
            mr_datatype := conn_type conn;
            mr_start := wrap32 (alloc_start alloc);
            mr_size := wrap32 (alloc_size alloc) |}
  end.

Definition output_at (context : codegen_context) (n : node) (i : nat)
  : result output_connector :=
  match node_outputs n !! i with
  | Some conn => Ok conn
  | None => Fatal OutOfRange (writer_ context)
  end.

(** [*node->input_at(i).connection()], as [get_allocation] receives it.
    The source only binds a reference to the connection; when the
    connection is null the key of the lookup is the null address, which has
    no allocation, so [allocations_.at] throws [std::out_of_range]. *)
Definition input_connection (context : codegen_context) (n : node) (i : nat)
  : result output_connector :=
  match node_inputs n !! i with
  | None => Fatal OutOfRange (writer_ context)
  | Some None => Fatal OutOfRange (writer_ context)
  | Some (Some conn) => Ok conn
  end.

(** ** The model serializer: [gencode] *)

(** Declarations that [gencode] takes from headers outside the available
    sources ([runtime/model.h], the opcode table): the three marker opcodes,
    the header constants, and the byte layout of the records of [model.h]. *)
Class external_defs := {
  op_input_node : Z;
  op_output_node : Z;
  op_constant : Z;
  MODEL_IDENTIFIER : Z;
  MODEL_VERSION : Z;
  MODEL_TARGET_K210 : Z;
  model_header_blittable :: Blittable model_header;
  memory_range_blittable :: Blittable memory_range;
  runtime_shape_blittable :: Blittable runtime_shape_t;
  node_header_blittable :: Blittable node_header
}.

(** Modelled from the spec: the macro [KM_NODE_PAGING] that [gencode] ors
    into the header flags is not defined in the available sources; section 6
    gives the paging bit of the flags as [KM_ENABLE_PAGING] = 0x02. *)
Definition KM_NODE_PAGING : Z := KM_ENABLE_PAGING.

(** The five vectors filled by the first loop of [gencode]. *)
Record classification := {
  cl_runtime_nodes : list node;
  cl_inputs : list memory_range;
  cl_input_shapes : list runtime_shape_t;
  cl_outputs : list memory_range;
  cl_constants : list node
}.

Definition no_nodes : classification :=
  {| cl_runtime_nodes := []; cl_inputs := []; cl_input_shapes := [];
     cl_outputs := []; cl_constants := [] |}.

Definition add_runtime_node (n : node) (c : classification) : classification :=
  {| cl_runtime_nodes := cl_runtime_nodes c ++ [n];
     cl_inputs := cl_inputs c; cl_input_shapes := cl_input_shapes c;
     cl_outputs := cl_outputs c; cl_constants := cl_constants c |}.

Definition add_input (r : memory_range) (s : runtime_shape_t)
    (c : classification) : classification :=
  {| cl_runtime_nodes := cl_runtime_nodes c;
     cl_inputs := cl_inputs c ++ [r]; cl_input_shapes := cl_input_shapes c ++ [s];
     cl_outputs := cl_outputs c; cl_constants := cl_constants c |}.

Definition add_output (r : memory_range) (c : classification) : classification :=
  {| cl_runtime_nodes := cl_runtime_nodes c;
     cl_inputs := cl_inputs c; cl_input_shapes := cl_input_shapes c;
     cl_outputs := cl_outputs c ++ [r]; cl_constants := cl_constants c |}.

Definition add_constant (n : node) (c : classification) : classification :=
  {| cl_runtime_nodes := cl_runtime_nodes c;
     cl_inputs := cl_inputs c; cl_input_shapes := cl_input_shapes c;
     cl_outputs := cl_outputs c; cl_constants := cl_constants c ++ [n] |}.

Section Gencode.
Context `{external_defs}.
Variable G : registry.

(** Lines 152-170, one iteration: the [if] and then the [switch]. *)
Definition classify_node (context : codegen_context) (n : node)
    (c : classification) : result classification :=
  let c := if is_disabled G (runtime_opcode n) then c else add_runtime_node n c in
  if runtime_opcode n =? op_input_node then
    conn ← output_at context n 0;
    r ← get_allocation context conn;
    Ok (add_input r (conn_shape conn) c)
  else if runtime_opcode n =? op_output_node then
    conn ← input_connection context n 0;
    r ← get_allocation context conn;
    Ok (add_output r c)
  else if runtime_opcode n =? op_constant then
    Ok (add_constant n c)
  else Ok c.

Fixpoint classify (context : codegen_context) (compute_sequence : list node)
    (c : classification) : result classification :=
  match compute_sequence with
  | [] => Ok c
  | n :: rest =>
      c' ← classify_node context n c;
      classify context rest c'
  end.

(** Lines 172-189. *)
Definition make_model_header (context : codegen_context) (c : classification)
  : model_header :=
  let enable_paging := true in
  let flags0 := 0 in
  {| identifier := MODEL_IDENTIFIER;
     version := MODEL_VERSION;
     flags := if enable_paging then Z.lor flags0 KM_NODE_PAGING else flags0;
     target := MODEL_TARGET_K210;
     constants := wrap32 (constant_usage context);
     main_mem := wrap32 (memory_usage context);
     nodes := wrap32 (Z.of_nat (length (cl_runtime_nodes c)));
     inputs := wrap32 (Z.of_nat (length (cl_inputs c)));
     outputs := wrap32 (Z.of_nat (length (cl_outputs c))) |}.

(** Lines 201-208: [std::copy] of each constant into the zeroed buffer, at
    the start offset of its allocation.  The copy has no bounds test: the
    bytes that fit are stored in the buffer, those that would lie past its
    end are not part of it ([list_inserts] leaves the list alone there), and
    the loop goes on. *)
Fixpoint fill_constants (context : codegen_context) (cs : list node)
    (const_mem : list byte) : result (list byte) :=
  match cs with
  | [] => Ok const_mem
  | n :: rest =>
      conn ← output_at context n 0;
      alloc ← get_allocation context conn;
      let start := Z.to_nat (mr_start alloc) in
      fill_constants context rest
        (list_inserts start (constant_data n) const_mem)
  end.

(** Line 217. *)
Definition page_bytes (mh : model_header) : Z :=
  sizeof memory_page * KM_MAX_PAGES *
  (if Z.land (flags mh) KM_MAX_PAGES =? 0 then 0 else 1).

(** Lines 227-231: one body, its padding and its header. *)
Definition emit_body (body : node_body) (writer : binary_writer)
    (node_headers : list node_header) : binary_writer * list node_header :=
  let body_start := position writer in
  let writer := write_bytes (body_bytes body) writer in
  let writer := align_position 8 writer in
  let body_size := position writer - body_start in
  (writer,
   node_headers ++ [{| opcode := body_opcode body; body_size := wrap32 body_size |}]).

(** Lines 222-233. *)
Fixpoint emit_bodies (context : codegen_context) (runtime_nodes : list node)
    (writer : binary_writer) (node_headers : list node_header)
  : result (binary_writer * list node_header) :=
  match runtime_nodes with
  | [] => Ok (writer, node_headers)
  | n :: rest =>
      body ← call_emitter G n (with_writer context writer);
      let '(writer, node_headers) :=
        match body with
        | Some body => emit_body body writer node_headers
        | None => (writer, node_headers)
        end in
      emit_bodies context rest writer node_headers
  end.

(** Lines 146-219 of [gencode]: classification, model header, descriptor
    tables, constant pool and the seek past the reserved region.  The result
    is the classification, the header as written, [node_headers_pos] and the
    writer positioned where the first body goes. *)
Definition gencode_prologue (context : codegen_context)
    (compute_sequence : list node)
  : result (classification * model_header * Z * binary_writer) :=
  c ← classify context compute_sequence no_nodes;
  let writer := writer_ context in
  let mh := make_model_header context c in
  let writer := write mh writer in
  let writer := write_array (cl_inputs c) writer in
  let writer := write_array (cl_input_shapes c) writer in
  let writer := write_array (cl_outputs c) writer in
  const_mem ← fill_constants (with_writer context writer) (cl_constants c)
                 (replicate (Z.to_nat (constant_usage context)) zero_byte);
  let writer := write_bytes const_mem writer in
  let node_headers_pos := position writer in
  let node_header_bytes :=
    sizeof node_header * Z.of_nat (length (cl_runtime_nodes c)) in
  let writer :=
    set_position (node_headers_pos + node_header_bytes + page_bytes mh) writer in
  Ok (c, mh, node_headers_pos, writer).

(** Lines 235-245 of [gencode]: the node headers and the page table are
    written into the reserved region, then the writer returns to the end of
    the bodies. *)
Definition write_back (mh : model_header) (runtime_nodes : list node)
    (node_headers_pos : Z) (writer : binary_writer)
    (node_headers : list node_header) : result binary_writer :=
  let end_pos := position writer in
  let writer := set_position node_headers_pos writer in
  let writer := write_array node_headers writer in
  writer ←
    (if Z.land (flags mh) KM_NODE_PAGING =? 0 then Ok writer
     else write_pages writer node_headers runtime_nodes);
  Ok (set_position end_pos writer).

Definition gencode (context : codegen_context) (compute_sequence : list node)
  : result binary_writer :=
  '(c, mh, node_headers_pos, writer) ← gencode_prologue context compute_sequence;
  '(writer, node_headers) ← emit_bodies context (cl_runtime_nodes c) writer [];
  write_back mh (cl_runtime_nodes c) node_headers_pos writer node_headers.

End Gencode.

(** * Vocabulary of the statements

    Nothing below is part of the program: these are the notions in which the
    properties of the planner and of the serializer are stated and proved. *)

(** Total size of a run of node bodies. *)
Definition sum_body (l : list node_header) : Z :=
  foldr (fun h acc => body_size h + acc) 0 l.

(** Total size of the bodies of the nodes [b..e], both included. *)
Definition range_sum (headers : list node_header) (b e : Z) : Z :=
  sum_body (take (Z.to_nat (e + 1 - b)) (drop (Z.to_nat b) headers)).

(** What the types of the source guarantee about a header vector: every
    [body_size] is a [uint32_t], and the [uint32_t] loop counter of
    [write_pages] can index the whole vector. *)
Definition wf_headers (headers : list node_header) : Prop :=
  Forall (fun h => is_uint32 (body_size h)) headers /\
  Z.of_nat (length headers) < 2 ^ 32.

#[global] Instance wf_headers_dec headers : Decision (wf_headers headers).
Proof. unfold wf_headers. apply _. Defined.

(** The pages that the loop of [write_pages] still produces from the state
    [current] at node [node], without the accumulator (see
    [plan_loop_from]). *)
Fixpoint plan_from (rest : list node_header) (node : Z) (current : memory_page)
  : list memory_page :=
  match rest with
  | [] => [current]
  | h :: rest' =>
      let '(current', closed) := plan_step current [] node h in
      closed ++ plan_from rest' (wrap32 (node + 1)) current'
  end.

(** [pages] is a chain of adjacent pages over [headers] that starts with
    page index [i] at node [b] and byte offset [off] and ends with the last
    node. *)
Fixpoint page_chain (headers : list node_header) (i b off : Z)
    (pages : list memory_page) : Prop :=
  match pages with
  | [] => b = Z.of_nat (length headers)
  | p :: pages' =>
      index p = i /\ begin p = b /\ offset_bytes p = off /\
      b <= end_ p < Z.of_nat (length headers) /\
      is_uint32 (size_bytes p) /\
      size_bytes p = range_sum headers b (end_ p) /\
      (TARGET_PAGE_SIZE < size_bytes p -> end_ p = b) /\
      page_chain headers (i + 1) (end_ p + 1) (off + size_bytes p) pages'
  end.

(** The invariant of the page under construction. *)
Definition page_ok (headers : list node_header) (p : memory_page) : Prop :=
  0 <= index p <= begin p /\ begin p <= end_ p /\
  is_uint32 (size_bytes p) /\
  size_bytes p = range_sum headers (begin p) (end_ p) /\
  offset_bytes p = sum_body (take (Z.to_nat (begin p)) headers) /\
  (TARGET_PAGE_SIZE < size_bytes p -> end_ p = begin p).


(** The working set as section 3 of the design describes it. *)
Definition sum_persistent (pages : list memory_page) : Z :=
  foldr (fun p acc =>
           match type p with persistent => size_bytes p + acc | swap => acc end)
        0 pages.

Definition max_swap (pages : list memory_page) : Z :=
  foldr (fun p acc =>
           match type p with persistent => acc | swap => Z.max (size_bytes p) acc end)
        0 pages.

(** ** Sample inputs *)

Definition fresh_writer : binary_writer := {| position := 0; stream := ∅ |}.

(** Ten bodies of 1,000,000 bytes each. *)
Definition ten_headers : list node_header :=
  replicate 10 {| opcode := 16; body_size := 1000000 |}.

(** Nine bodies that each exceed the page budget. *)
Definition nine_large_headers : list node_header :=
  replicate 9 {| opcode := 16; body_size := 2400000 |}.

(** Three bodies, the second larger than the page budget. *)
Definition mixed_headers : list node_header :=
  [ {| opcode := 16; body_size := 1200000 |};
    {| opcode := 17; body_size := 5000000 |};
    {| opcode := 16; body_size := 64 |} ].

(** Modelled from the spec: the byte layout of the records of
    [runtime/model.h], a header outside the available sources.  Section 6
    lists the fields of each record and fixes fixed-width little-endian
    integers; they are taken as 32 bits wide, as the [uint32_t] casts of the
    code suggest.  The opcode and header constants are sample values. *)
#[local] Instance sample_defs : external_defs := {
  op_input_node := 1;
  op_output_node := 2;
  op_constant := 4;
  MODEL_IDENTIFIER := 0x4B4D444C;
  MODEL_VERSION := 4;
  MODEL_TARGET_K210 := 1;
  model_header_blittable := {|
    sizeof := 36;
    to_bytes mh :=
      le_bytes 4 (identifier mh) ++ le_bytes 4 (version mh) ++
      le_bytes 4 (flags mh) ++ le_bytes 4 (target mh) ++
      le_bytes 4 (constants mh) ++ le_bytes 4 (main_mem mh) ++
      le_bytes 4 (nodes mh) ++ le_bytes 4 (inputs mh) ++
      le_bytes 4 (outputs mh) |};
  memory_range_blittable := {|
    sizeof := 16;
    to_bytes r :=
      le_bytes 4 (mr_memory_type r) ++ le_bytes 4 (mr_datatype r) ++
      le_bytes 4 (mr_start r) ++ le_bytes 4 (mr_size r) |};
  runtime_shape_blittable := {|
    sizeof := 20;
    to_bytes s := le_bytes 4 (Z.of_nat (length s)) ++ concat (le_bytes 4 <$> s) |};
  node_header_blittable := {|
    sizeof := 8;
    to_bytes h := le_bytes 4 (opcode h) ++ le_bytes 4 (body_size h) |}
}.

Definition sample_context : codegen_context :=
  {| writer_ := fresh_writer; constant_usage := 0; memory_usage := 0;
     allocations_ := ∅ |}.

(** An emitter whose body is [len] bytes of 0xff. *)
Definition sample_emitter (len : nat) : emitter_t :=
  fun n _ => Some {| body_opcode := runtime_opcode n;
                     body_bytes := replicate len Byte.xff |}.

(** Opcode 16 has an emitter, opcode 3 is disabled, opcode 17 is neither. *)
Definition sample_registry : registry :=
  register_emitter 16 (sample_emitter 5)
    (disable_emitter 3 {| g_emitters := ∅; g_disabled_emitters := ∅ |}).

Definition sample_node (op : Z) : node :=
  {| runtime_opcode := op; node_outputs := []; node_inputs := [];
     constant_data := [] |}.

(** The nodes that [gencode] keeps in [runtime_nodes]. *)
Definition enabled (G : registry) (n : node) : bool :=
  negb (is_disabled G (runtime_opcode n)).

(** A body of [2^32] zero bytes. *)
Definition huge_body : node_body :=
  {| body_opcode := 16; body_bytes := replicate (Z.to_nat (2 ^ 32)) zero_byte |}.

(** ** The marker nodes of [gencode] *)

Section Markers.
Context `{external_defs}.

(** The cases of the [switch] in the first loop of [gencode], as the
    embedding tries them. *)
Definition is_input_marker (n : node) : bool :=
  runtime_opcode n =? op_input_node.

Definition is_output_marker (n : node) : bool :=
  negb (is_input_marker n) && (runtime_opcode n =? op_output_node).

Definition is_constant_marker (n : node) : bool :=
  negb (is_input_marker n) && negb (runtime_opcode n =? op_output_node)
  && (runtime_opcode n =? op_constant).

Definition has_allocation (context : codegen_context) (conn : output_connector)
  : bool :=
  bool_decide (is_Some (allocations_ context !! conn_id conn)).

(** What the first loop of [gencode] needs from a node: an input marker has
    an output 0 with an allocation, an output marker has an input 0 that is
    connected to a connector with an allocation. *)
Definition classifiable (context : codegen_context) (n : node) : bool :=
  if is_input_marker n then
    match node_outputs n !! 0%nat with
    | Some conn => has_allocation context conn
    | None => false
    end
  else if is_output_marker n then
    match node_inputs n !! 0%nat with
    | Some (Some conn) => has_allocation context conn
    | _ => false
    end
  else true.

End Markers.

(** Two classifications with the same descriptor tables and constants. *)
Definition same_tables (c c' : classification) : Prop :=
  cl_inputs c = cl_inputs c' /\ cl_input_shapes c = cl_input_shapes c' /\
  cl_outputs c = cl_outputs c' /\ cl_constants c = cl_constants c'.

(** Where [gencode] copies the data of a constant node: the start offset
    and the length, when its output has an allocation. *)
Definition constant_range (context : codegen_context) (n : node)
  : option (nat * nat) :=
  match node_outputs n !! 0%nat with
  | Some conn =>
      match allocations_ context !! conn_id conn with
      | Some alloc =>
          Some (Z.to_nat (wrap32 (alloc_start alloc)), length (constant_data n))
      | None => None
      end
  | None => None
  end.

(** An input marker with an allocated output, a constant of three bytes at
    offset 2, and a context that knows both connectors. *)
Definition sample_connector (id : Z) : output_connector :=
  {| conn_id := id; conn_type := 0; conn_shape := [1; 3; 8; 8] |}.

Definition sample_input_node : node :=
  {| runtime_opcode := 1; node_outputs := [sample_connector 100];
     node_inputs := []; constant_data := [] |}.

Definition sample_constant_node : node :=
  {| runtime_opcode := 4; node_outputs := [sample_connector 101];
     node_inputs := [];
     constant_data := [Byte.x0a; Byte.x0b; Byte.x0c] |}.

Definition sample_allocations : gmap Z memory_allocation :=
  <[100 := {| alloc_type := 2; alloc_start := 0; alloc_size := 192 |}]>
    (<[101 := {| alloc_type := 0; alloc_start := 2; alloc_size := 3 |}]> ∅).

Definition sample_context_with_constants : codegen_context :=
  {| writer_ := fresh_writer; constant_usage := 8; memory_usage := 192;
     allocations_ := sample_allocations |}.

(** The sample registry with the input and constant markers disabled, and a
    sequence with an input marker, a compute node and a constant. *)
Definition neutral_registry : registry :=
  disable_emitter 1 (disable_emitter 4 sample_registry).

Definition sample_sequence : list node :=
  [sample_input_node; sample_node 16; sample_constant_node].

(** * The binary writer *)

Lemma store_bytes_lookup bs : forall p (m : gmap Z byte) q,
  store_bytes p bs m !! q =
  if decide (p <= q < p + Z.of_nat (length bs))
  then bs !! Z.to_nat (q - p) else m !! q.
Proof.
  induction bs as [|b bs IH]; intros p m q; simpl store_bytes.
  - case_decide; [simpl in *; lia | done].
  - rewrite IH. simpl length.
    destruct (decide (q = p)) as [->|Hne].
    + rewrite decide_False by lia. rewrite decide_True by lia.
      rewrite lookup_insert_eq. by rewrite Z.sub_diag.
    + rewrite lookup_insert_ne by done.
      repeat case_decide; try lia; try done.
      replace (Z.to_nat (q - p)) with (S (Z.to_nat (q - (p + 1)))) by lia.
      done.
Qed.

Lemma write_bytes_stored bs w (k : nat) b :
  bs !! k = Some b ->
  stream (write_bytes bs w) !! (position w + Z.of_nat k) = Some b.
Proof.
  intros Hk. pose proof (lookup_lt_Some _ _ _ Hk).
  simpl. rewrite store_bytes_lookup, decide_True by lia.
  rewrite <- Hk. f_equal. lia.
Qed.

Lemma write_bytes_outside bs w q :
  q < position w \/ position w + Z.of_nat (length bs) <= q ->
  stream (write_bytes bs w) !! q = stream w !! q.
Proof. intros Hq. simpl. rewrite store_bytes_lookup, decide_False by lia. done. Qed.

Lemma align_padding_8 pos :
  0 <= align_padding 8 pos < 8 /\ (pos + align_padding 8 pos) mod 8 = 0.
Proof.
  unfold align_padding.
  pose proof (Z.mod_pos_bound pos 8 ltac:(lia)).
  pose proof (Z.mod_pos_bound (8 - pos mod 8) 8 ltac:(lia)).
  split; [lia|].
  rewrite <- Zplus_mod_idemp_l, Zplus_mod_idemp_r.
  replace (pos mod 8 + (8 - pos mod 8)) with (1 * 8) by lia.
  apply Z_mod_mult.
Qed.

Lemma align_position_8 w :
  let w' := align_position 8 w in
  position w <= position w' < position w + 8 /\
  position w' mod 8 = 0 /\
  (forall q, position w <= q < position w' -> stream w' !! q = Some zero_byte) /\
  (forall q, q < position w -> stream w' !! q = stream w !! q).
Proof.
  destruct (align_padding_8 (position w)) as [Hpad Hmod].
  assert (position (align_position 8 w) = position w + align_padding 8 (position w))
    as Hpos.
  { unfold align_position, write_bytes. simpl. rewrite length_replicate. lia. }
  cbv zeta. rewrite Hpos. repeat split; try lia; try done.
  - intros q Hq. unfold align_position. simpl.
    rewrite store_bytes_lookup, length_replicate, decide_True by lia.
    apply lookup_replicate_2. lia.
  - intros q Hq. unfold align_position. by rewrite write_bytes_outside by lia.
Qed.

(** Records written one after the other leave what lies before them. *)
Lemma write_each_outside {T} `{Blittable T} (xs : list T) : forall w q,
  q < position w ->
  position w <= position (foldl (fun wr x => write x wr) w xs) /\
  stream (foldl (fun wr x => write x wr) w xs) !! q = stream w !! q.
Proof.
  induction xs as [|x xs IH]; intros w q Hq; simpl; [split; [lia | done]|].
  destruct (IH (write x w) q) as [Hpos Hst].
  { unfold write. simpl. lia. }
  split.
  - etransitivity; [|exact Hpos]. unfold write. simpl. lia.
  - rewrite Hst. unfold write. apply write_bytes_outside. lia.
Qed.

(** * The page planner *)

Lemma plan_step_acc current pages node h :
  plan_step current pages node h =
  ((plan_step current [] node h).1, pages ++ (plan_step current [] node h).2).
Proof.
  unfold plan_step. destruct (_ >? _); simpl; [done | by rewrite app_nil_r].
Qed.

Lemma plan_loop_from rest : forall node current pages,
  (plan_loop rest node current pages).2 ++ [(plan_loop rest node current pages).1]
  = pages ++ plan_from rest node current.
Proof.
  induction rest as [|h rest IH]; intros node current pages; simpl; [done|].
  rewrite (plan_step_acc current pages).
  destruct (plan_step current [] node h) as [c closed]; simpl.
  rewrite IH. by rewrite <- app_assoc.
Qed.

Lemma plan_pages_from w h0 rest :
  plan_pages w (h0 :: rest) =
  Ok (plan_from rest 1
        {| index := 0; type := persistent; begin := 0; end_ := 0;
           offset_bytes := 0; size_bytes := body_size h0 |}).
Proof.
  unfold plan_pages; simpl. rewrite drop_0.
  pose proof (plan_loop_from rest 1
    {| index := 0; type := persistent; begin := 0; end_ := 0;
       offset_bytes := 0; size_bytes := body_size h0 |} []) as E.
  destruct (plan_loop rest 1 _ []) as [c ps]; simpl in E. by rewrite E.
Qed.

Lemma sum_body_app l1 l2 : sum_body (l1 ++ l2) = sum_body l1 + sum_body l2.
Proof. induction l1; simpl; lia. Qed.

Lemma sum_body_bound l :
  Forall (fun h => is_uint32 (body_size h)) l ->
  0 <= sum_body l <= Z.of_nat (length l) * (2 ^ 32 - 1).
Proof.
  induction 1 as [|h l Hh _ IH]; simpl; [lia|]. unfold is_uint32 in Hh. lia.
Qed.

Lemma range_sum_single headers n h :
  0 <= n -> headers !! Z.to_nat n = Some h -> range_sum headers n n = body_size h.
Proof.
  intros Hn Hl. unfold range_sum. replace (n + 1 - n) with 1 by lia.
  change (Z.to_nat 1) with 1%nat.
  rewrite (drop_S _ _ _ Hl). simpl. rewrite ?take_0. simpl. lia.
Qed.

Lemma range_sum_snoc headers b e h :
  0 <= b <= e + 1 -> headers !! Z.to_nat (e + 1) = Some h ->
  range_sum headers b (e + 1) = range_sum headers b e + body_size h.
Proof.
  intros Hb Hl. unfold range_sum.
  replace (Z.to_nat (e + 1 + 1 - b)) with (S (Z.to_nat (e + 1 - b))) by lia.
  assert (drop (Z.to_nat b) headers !! Z.to_nat (e + 1 - b) = Some h) as Hd.
  { rewrite lookup_drop. rewrite <- Hl. f_equal. lia. }
  rewrite (take_S_r _ _ _ Hd), sum_body_app. simpl. lia.
Qed.

Lemma range_sum_prefix headers b e :
  0 <= b <= e + 1 ->
  sum_body (take (Z.to_nat b) headers) + range_sum headers b e
  = sum_body (take (Z.to_nat (e + 1)) headers).
Proof.
  intros Hb. unfold range_sum. rewrite <- sum_body_app. f_equal.
  replace (Z.to_nat (e + 1)) with (Z.to_nat b + Z.to_nat (e + 1 - b))%nat by lia.
  by rewrite take_take_drop.
Qed.

Lemma wrap32_small z : is_uint32 z -> wrap32 z = z.
Proof. unfold is_uint32, wrap32. intros. by apply Z.mod_small. Qed.

Lemma wrap64_small z : 0 <= z < 2 ^ 64 -> wrap64 z = z.
Proof. unfold wrap64. intros. by apply Z.mod_small. Qed.

Lemma prefix_sum_bound headers n :
  wf_headers headers ->
  0 <= sum_body (take n headers) < 2 ^ 64.
Proof.
  intros [Hwf Hlen].
  pose proof (sum_body_bound (take n headers) (Forall_take _ n _ Hwf)) as Hb.
  rewrite length_take in Hb. nia.
Qed.

Lemma plan_from_chain headers : wf_headers headers ->
  forall rest done current,
  headers = done ++ rest -> done <> [] ->
  page_ok headers current ->
  end_ current = Z.of_nat (length done) - 1 ->
  page_chain headers (index current) (begin current) (offset_bytes current)
    (plan_from rest (Z.of_nat (length done)) current).
Proof.
  intros Hwf.
  induction rest as [|h rest IH]; intros done current Hh Hne Hok Hend.
  - simpl. destruct Hok as (Hi & Hb & Hs & Hsum & Hoff & Hbig).
    rewrite app_nil_r in Hh. subst done. unfold is_uint32 in *.
    repeat split; try lia; auto.
  - assert (headers !! length done = Some h) as Hl.
    { subst headers. by rewrite list_lookup_middle. }
    assert (Z.of_nat (length done) + 1 <= Z.of_nat (length headers)) as Hn.
    { subst headers. rewrite length_app. simpl. lia. }
    assert (is_uint32 (body_size h)) as Hbh.
    { destruct Hwf as [Hall _]. rewrite Forall_forall in Hall. apply Hall.
      eapply list_elem_of_lookup_2; eauto. }
    assert (0 < Z.of_nat (length done)) as Hpos.
    { destruct done; [done | simpl; lia]. }
    destruct Hok as (Hi & Hb & Hs & Hsum & Hoff & Hbig).
    pose proof (proj2 Hwf) as Hlen. unfold is_uint32 in *.
    assert (wrap32 (Z.of_nat (length done) + 1) = Z.of_nat (length (done ++ [h]))) as Hw.
    { rewrite length_app. simpl. rewrite wrap32_small; unfold is_uint32; lia. }
    simpl. unfold plan_step.
    rewrite (wrap64_small (body_size h + size_bytes current)) by lia.
    destruct (body_size h + size_bytes current >? TARGET_PAGE_SIZE) eqn:Hcmp;
      simpl; rewrite Hw.
    + pose proof (range_sum_prefix headers (begin current) (end_ current)
                    ltac:(lia)) as Hpre.
      pose proof (prefix_sum_bound headers (Z.to_nat (end_ current + 1)) Hwf).
      repeat split; try lia; auto.
      set (page := Build_memory_page _ _ _ _ _ _).
      replace (index current + 1) with (index page)
        by (simpl; apply wrap32_small; unfold is_uint32; lia).
      replace (end_ current + 1) with (begin page) by (simpl; lia).
      replace (offset_bytes current + size_bytes current) with (offset_bytes page)
        by (simpl; apply wrap64_small; lia).
      apply IH.
      * subst headers. by rewrite <- app_assoc.
      * by destruct done.
      * unfold page_ok, is_uint32; simpl.
        rewrite wrap32_small by (unfold is_uint32; lia).
        rewrite wrap64_small by lia.
        repeat split; try lia.
        -- symmetry. apply range_sum_single; [lia|]. by rewrite Nat2Z.id.
        -- rewrite Hoff, Hsum, Hpre. do 2 f_equal. lia.
      * simpl. rewrite length_app. simpl. lia.
    + rewrite Z.gtb_ltb in Hcmp. apply Z.ltb_ge in Hcmp.
      set (page := Build_memory_page _ _ _ _ _ _).
      change (index current) with (index page).
      change (begin current) with (begin page).
      change (offset_bytes current) with (offset_bytes page).
      apply IH.
      * subst headers. by rewrite <- app_assoc.
      * by destruct done.
      * unfold page_ok, is_uint32; simpl.
        rewrite wrap64_small by lia.
        unfold TARGET_PAGE_SIZE in *.
        repeat split; try lia.
        -- replace (Z.of_nat (length done)) with (end_ current + 1) by lia.
           rewrite (range_sum_snoc headers (begin current) (end_ current) h);
             [lia | lia |].
           replace (Z.to_nat (end_ current + 1)) with (length done) by lia. done.
      * simpl. rewrite length_app. simpl. lia.
Qed.

Lemma page_chain_lookup headers pages : forall i b off k (p : memory_page),
  page_chain headers i b off pages -> pages !! k = Some p ->
  index p = i + Z.of_nat k /\ b <= begin p /\
  begin p <= end_ p < Z.of_nat (length headers) /\
  is_uint32 (size_bytes p) /\
  size_bytes p = range_sum headers (begin p) (end_ p) /\
  (TARGET_PAGE_SIZE < size_bytes p -> end_ p = begin p).
Proof.
  induction pages as [|p0 pages IH]; intros i b off k p Hc Hk; [done|].
  destruct Hc as (Hi & Hb & Ho & Hr & Hu & Hs & Hbig & Hc).
  destruct k as [|k]; simpl in Hk.
  - injection Hk as <-. subst b. unfold is_uint32 in *.
    repeat split; try lia; auto.
  - destruct (IH _ _ _ _ _ Hc Hk) as (? & ? & ? & ? & ? & ?).
    unfold is_uint32 in *. repeat split; try lia; auto.
Qed.

Lemma page_chain_head headers i b off (p : memory_page) pages :
  page_chain headers i b off (p :: pages) ->
  index p = i /\ begin p = b /\ offset_bytes p = off.
Proof. simpl. tauto. Qed.

Lemma page_chain_succ headers pages : forall i b off k (p q : memory_page),
  page_chain headers i b off pages ->
  pages !! k = Some p -> pages !! S k = Some q ->
  end_ p + 1 = begin q /\ offset_bytes q = offset_bytes p + size_bytes p.
Proof.
  induction pages as [|p0 pages IH]; intros i b off k p q Hc Hp Hq; [done|].
  destruct Hc as (Hi & Hb & Ho & Hr & Hu & Hs & Hbig & Hc).
  destruct k as [|k]; simpl in Hp, Hq.
  - injection Hp as <-. destruct pages as [|q0 pages]; [done|].
    injection Hq as <-. destruct Hc as (_ & ? & ? & _). lia.
  - eapply IH; eauto.
Qed.

Lemma page_chain_last headers pages : forall i b off (p : memory_page),
  page_chain headers i b off pages -> last pages = Some p ->
  end_ p = Z.of_nat (length headers) - 1.
Proof.
  induction pages as [|p0 pages IH]; intros i b off p Hc Hl; [done|].
  destruct Hc as (Hi & Hb & Ho & Hr & Hu & Hs & Hbig & Hc).
  destruct pages as [|p1 pages].
  - injection Hl as <-. simpl in Hc. lia.
  - eapply IH; eauto.
Qed.

Lemma page_chain_cover headers pages : forall i b off n,
  page_chain headers i b off pages -> b <= n < Z.of_nat (length headers) ->
  exists k (p : memory_page), pages !! k = Some p /\ begin p <= n <= end_ p.
Proof.
  induction pages as [|p0 pages IH]; intros i b off n Hc Hn; [simpl in Hc; lia|].
  destruct Hc as (Hi & Hb & Ho & Hr & Hu & Hs & Hbig & Hc).
  destruct (decide (n <= end_ p0)) as [Hle|Hgt].
  - exists 0%nat, p0. split; [done | lia].
  - destruct (IH _ _ _ n Hc ltac:(lia)) as (k & p & Hk & Hin).
    by exists (S k), p.
Qed.

Lemma page_chain_sorted headers pages : forall i b off j k (p q : memory_page),
  page_chain headers i b off pages ->
  pages !! j = Some p -> pages !! k = Some q -> (j < k)%nat ->
  end_ p < begin q.
Proof.
  induction pages as [|p0 pages IH]; intros i b off j k p q Hc Hp Hq Hjk; [done|].
  destruct Hc as (Hi & Hb & Ho & Hr & Hu & Hs & Hbig & Hc).
  destruct k as [|k]; [lia|]. simpl in Hq.
  destruct j as [|j]; simpl in Hp.
  - injection Hp as <-.
    destruct (page_chain_lookup _ _ _ _ _ _ _ Hc Hq) as (_ & ? & _). lia.
  - eapply IH; eauto. lia.
Qed.

Lemma plan_from_types rest : forall node current,
  exists p pages, plan_from rest node current = p :: pages /\
    type p = type current /\ Forall (fun q => type q = swap) pages.
Proof.
  induction rest as [|h rest IH]; intros node current; simpl.
  - by exists current, [].
  - unfold plan_step. destruct (_ >? _); simpl.
    + edestruct IH as (p & pages & -> & Hp & Hall).
      exists current, (p :: pages). repeat split; auto.
    + edestruct IH as (p & pages & -> & Hp & Hall).
      exists p, pages. repeat split; auto.
Qed.

Lemma plan_pages_chain w headers :
  headers <> [] -> wf_headers headers ->
  exists pages, plan_pages w headers = Ok pages /\ page_chain headers 0 0 0 pages.
Proof.
  intros Hne Hwf. destruct headers as [|h0 rest]; [done|].
  rewrite plan_pages_from. eexists; split; [done|].
  set (current := Build_memory_page _ _ _ _ _ _).
  apply (plan_from_chain (h0 :: rest) Hwf rest [h0] current); try done.
  assert (is_uint32 (body_size h0)) as Hu.
  { destruct Hwf as [Hall _]. by inversion Hall. }
  unfold page_ok; simpl. repeat split; try lia; try apply Hu.
  rewrite (range_sum_single _ 0 h0); done.
Qed.

Lemma wf_headers_replicate n h :
  is_uint32 (body_size h) -> Z.of_nat n < 2 ^ 32 -> wf_headers (replicate n h).
Proof.
  intros Hh Hn. split; [|by rewrite length_replicate].
  apply Forall_replicate. exact Hh.
Qed.

Lemma wf_ten_headers : wf_headers ten_headers.
Proof. apply wf_headers_replicate; unfold is_uint32; simpl; lia. Qed.

Lemma wf_mixed_headers : wf_headers mixed_headers.
Proof.
  split; [|simpl; lia].
  unfold mixed_headers, is_uint32. repeat constructor; simpl; lia.
Qed.

(** C2. On a non-empty header vector the planner's pages partition the node
    indices [0, N): page 0 begins at node 0 with offset 0, the last page ends
    at node N-1, every page has [begin <= end], its [index] is its place in
    the vector, its [size_bytes] is the sum of the body sizes it covers,
    consecutive pages are adjacent ([end + 1 = begin]) with offsets that add
    up, and every node index lies in exactly one page. *)
Theorem plan_pages_partition (w : binary_writer) (headers : list node_header) :
  headers <> [] -> wf_headers headers ->
  exists pages : list memory_page,
    plan_pages w headers = Ok pages /\
    (exists first, pages !! 0%nat = Some first /\
       begin first = 0 /\ offset_bytes first = 0) /\
    (exists final, last pages = Some final /\
       end_ final = Z.of_nat (length headers) - 1) /\
    (forall i p, pages !! i = Some p ->
       index p = Z.of_nat i /\ begin p <= end_ p /\
       size_bytes p = range_sum headers (begin p) (end_ p)) /\
    (forall i p q, pages !! i = Some p -> pages !! S i = Some q ->
       end_ p + 1 = begin q /\
       offset_bytes q = offset_bytes p + size_bytes p) /\
    (forall n, 0 <= n < Z.of_nat (length headers) ->
       exists i p, pages !! i = Some p /\ begin p <= n <= end_ p /\
         forall j q, pages !! j = Some q -> begin q <= n <= end_ q -> j = i).
Proof.
  intros Hne Hwf.
  destruct (plan_pages_chain w headers Hne Hwf) as (pages & Hplan & Hc).
  exists pages. split; [done|].
  destruct pages as [|first pages].
  { simpl in Hc. destruct headers; [done | simpl in Hc; lia]. }
  split; [|split; [|split; [|split]]].
  - exists first. by destruct (page_chain_head _ _ _ _ _ _ Hc) as (_ & ? & ?).
  - destruct (last (first :: pages)) as [final|] eqn:Hl.
    + exists final. split; [done|]. eapply page_chain_last; eauto.
    + by apply last_None in Hl.
  - intros i p Hi.
    destruct (page_chain_lookup _ _ _ _ _ _ _ Hc Hi) as (? & _ & ? & _ & ? & _).
    repeat split; try done; lia.
  - intros i p q Hp Hq. exact (page_chain_succ _ _ _ _ _ _ _ _ Hc Hp Hq).
  - intros n Hn.
    destruct (page_chain_cover _ _ _ _ _ n Hc Hn) as (i & p & Hi & Hin).
    exists i, p. split; [done|]. split; [done|].
    intros j q Hj Hq.
    destruct (decide (j = i)) as [|Hji]; [done|]. exfalso.
    destruct (decide (j < i)%nat).
    + pose proof (page_chain_sorted _ _ _ _ _ j i q p Hc Hj Hi ltac:(lia)). lia.
    + pose proof (page_chain_sorted _ _ _ _ _ i j p q Hc Hi Hj ltac:(lia)). lia.
Qed.

Lemma plan_pages_partition_witness :
  ten_headers <> [] /\ wf_headers ten_headers /\
  exists pages, plan_pages fresh_writer ten_headers = Ok pages /\ length pages = 5%nat.
Proof.
  split; [done|]. split; [exact wf_ten_headers|].
  destruct (plan_pages_partition fresh_writer ten_headers) as (pages & Hp & _);
    [done | exact wf_ten_headers |].
  exists pages. split; [exact Hp|].
  vm_compute in Hp. injection Hp as <-. reflexivity.
Defined.

(** C3. On a non-empty header vector the first page is [persistent] and
    every later page is [swap], whatever the body sizes are. *)
Theorem plan_pages_types (w : binary_writer) (headers : list node_header) :
  headers <> [] ->
  exists pages : list memory_page,
    plan_pages w headers = Ok pages /\
    forall i p, pages !! i = Some p ->
      type p = match i with O => persistent | S _ => swap end.
Proof.
  intros Hne. destruct headers as [|h0 rest]; [done|].
  rewrite plan_pages_from.
  edestruct (plan_from_types rest 1) as (p0 & pages & -> & Hp0 & Hall).
  eexists; split; [done|].
  intros [|i] p Hi; simpl in Hi.
  - injection Hi as <-. exact Hp0.
  - rewrite Forall_lookup in Hall. eauto.
Qed.

Lemma plan_pages_types_witness :
  mixed_headers <> [] /\
  exists pages, plan_pages fresh_writer mixed_headers = Ok pages /\
    type <$> pages = [persistent; swap; swap].
Proof.
  split; [done|].
  destruct (plan_pages_types fresh_writer mixed_headers) as (pages & Hp & _); [done|].
  exists pages. split; [exact Hp|].
  vm_compute in Hp. injection Hp as <-. reflexivity.
Defined.

(** C4. On a non-empty header vector a page whose [size_bytes] exceeds
    [TARGET_PAGE_SIZE] covers exactly one node, and that node's own body size
    is the page size; so a page that covers two or more nodes stays within
    the budget. *)
Theorem plan_pages_oversized_singleton (w : binary_writer)
    (headers : list node_header) :
  headers <> [] -> wf_headers headers ->
  exists pages : list memory_page,
    plan_pages w headers = Ok pages /\
    forall i p, pages !! i = Some p ->
      (TARGET_PAGE_SIZE < size_bytes p ->
         begin p = end_ p /\
         exists h, headers !! Z.to_nat (begin p) = Some h /\
           body_size h = size_bytes p /\ TARGET_PAGE_SIZE < body_size h) /\
      (begin p < end_ p -> size_bytes p <= TARGET_PAGE_SIZE).
Proof.
  intros Hne Hwf.
  destruct (plan_pages_chain w headers Hne Hwf) as (pages & Hplan & Hc).
  exists pages. split; [done|]. intros i p Hi.
  destruct (page_chain_lookup _ _ _ _ _ _ _ Hc Hi)
    as (_ & Hb & Hr & _ & Hs & Hbig).
  split.
  - intros Hlt. specialize (Hbig Hlt). split; [lia|].
    destruct (lookup_lt_is_Some_2 headers (Z.to_nat (begin p)) ltac:(lia))
      as [h Hh].
    exists h. split; [done|].
    rewrite Hbig in Hs. rewrite (range_sum_single _ _ h) in Hs by (done || lia).
    lia.
  - intros Hlt. destruct (decide (TARGET_PAGE_SIZE < size_bytes p)); [|lia].
    specialize (Hbig ltac:(done)). lia.
Qed.

Lemma plan_pages_oversized_singleton_witness :
  mixed_headers <> [] /\ wf_headers mixed_headers /\
  exists pages, plan_pages fresh_writer mixed_headers = Ok pages /\
    size_bytes <$> pages = [1200000; 5000000; 64].
Proof.
  split; [done|]. split; [exact wf_mixed_headers|].
  destruct (plan_pages_oversized_singleton fresh_writer mixed_headers)
    as (pages & Hp & _); [done | exact wf_mixed_headers |].
  exists pages. split; [exact Hp|].
  vm_compute in Hp. injection Hp as <-. reflexivity.
Defined.

(** * The page table *)

Lemma max_swap_nonneg pages : 0 <= max_swap pages.
Proof. induction pages as [|p pages IH]; simpl; [lia|]. destruct (type p); lia. Qed.

Lemma max_swap_bound pages :
  Forall (fun p => is_uint32 (size_bytes p)) pages -> max_swap pages < 2 ^ 32.
Proof.
  induction 1 as [|p pages Hp _ IH]; simpl; [lia|].
  unfold is_uint32 in Hp. destruct (type p); lia.
Qed.

Lemma sum_persistent_swaps pages :
  Forall (fun p => type p = swap) pages -> sum_persistent pages = 0.
Proof. induction 1 as [|p pages Hp _ IH]; simpl; [done|]. by rewrite Hp. Qed.

Lemma working_set_swaps pages : forall working_size largest_swap,
  Forall (fun p => type p = swap) pages -> 0 <= largest_swap ->
  foldl working_set_step (working_size, largest_swap) pages
  = (working_size, Z.max largest_swap (max_swap pages)).
Proof.
  induction pages as [|p pages IH]; intros ws ls Hall Hls; simpl.
  - f_equal. lia.
  - inversion Hall as [|? ? Hp Hall']; subst. rewrite Hp.
    rewrite IH by (done || lia). f_equal.
    pose proof (max_swap_nonneg pages). lia.
Qed.

(** What the table holds when the first page is the only persistent one. *)
Lemma make_table_working_set first others :
  type first = persistent ->
  Forall (fun p => type p = swap) others ->
  Forall (fun p => is_uint32 (size_bytes p)) (first :: others) ->
  body_buffer_size (make_table (first :: others))
  = sum_persistent (first :: others) + max_swap (first :: others).
Proof.
  intros Hf Hsw Hsz. inversion Hsz as [|? ? Hf32 Ho32]; subst.
  unfold make_table. simpl. rewrite Hf.
  unfold is_uint32 in Hf32.
  rewrite wrap64_small by lia.
  rewrite working_set_swaps by (done || lia). simpl.
  rewrite sum_persistent_swaps by done.
  pose proof (max_swap_nonneg others). pose proof (max_swap_bound others Ho32).
  rewrite wrap64_small by lia. lia.
Qed.

Lemma page_chain_sizes headers pages : forall i b off,
  page_chain headers i b off pages ->
  Forall (fun p => is_uint32 (size_bytes p)) pages.
Proof.
  induction pages as [|p pages IH]; intros i b off Hc; [constructor|].
  destruct Hc as (_ & _ & _ & _ & Hu & _ & _ & Hc).
  constructor; [exact Hu | eauto].
Qed.

Lemma write_pages_unfold writer headers nodes pages :
  plan_pages writer headers = Ok pages ->
  write_pages writer headers nodes =
  if Z.of_nat (length pages) <=? KM_MAX_PAGES then
    Ok (foldl (fun wr page => write page wr) (write (make_table pages) writer) pages)
  else Fatal AssertionFailed writer.
Proof. intros Hp. unfold write_pages. rewrite Hp. reflexivity. Qed.

Lemma plan_pages_fatal w headers e w' :
  plan_pages w headers = Fatal e w' ->
  headers = [] /\ e = IndexOutOfBounds /\ w' = w.
Proof.
  unfold plan_pages. destruct headers as [|h0 rest]; simpl.
  - intros [= <- <-]. done.
  - rewrite drop_0. destruct (plan_loop _ _ _ _). discriminate.
Qed.

(** C5. On a non-empty header vector the [body_buffer_size] of the table is
    the sum of the persistent pages' sizes plus the largest swap page's size
    (0 without swap pages); that table is the one [write_pages] writes, and
    its bytes are in the stream where the writer stood; for ten bodies of
    1,000,000 bytes the planner yields 5 pages and a [body_buffer_size] of
    4,000,000. *)
Theorem write_pages_body_buffer_size (w : binary_writer)
    (headers : list node_header) (nodes : list node) :
  (headers <> [] -> wf_headers headers ->
   exists pages : list memory_page,
     plan_pages w headers = Ok pages /\
     body_buffer_size (make_table pages) = sum_persistent pages + max_swap pages /\
     forall w', write_pages w headers nodes = Ok w' ->
       w' = foldl (fun wr page => write page wr)
                  (write (make_table pages) w) pages /\
       forall (k : nat) b, to_bytes (make_table pages) !! k = Some b ->
         stream w' !! (position w + Z.of_nat k) = Some b) /\
  (exists pages : list memory_page,
     plan_pages w ten_headers = Ok pages /\ length pages = 5%nat /\
     make_table pages =
       {| num_pages := 5; max_pages := 8; body_buffer_size := 4000000 |}).
Proof.
  split.
  - intros Hne Hwf.
    destruct (plan_pages_chain w headers Hne Hwf) as (pages & Hplan & Hc).
    exists pages. split; [done|]. split.
    + destruct headers as [|h0 rest]; [done|].
      rewrite plan_pages_from in Hplan. injection Hplan as <-.
      pose proof (page_chain_sizes _ _ _ _ _ Hc) as Hsz.
      edestruct (plan_from_types rest 1) as (p0 & others & Heq & Hp0 & Hall).
      rewrite Heq in *. by apply make_table_working_set.
    + intros w' Hw. rewrite (write_pages_unfold _ _ _ _ Hplan) in Hw.
      destruct (_ <=? _); [injection Hw as <- | discriminate].
      split; [done|]. intros k b Hk. pose proof (lookup_lt_Some _ _ _ Hk).
      destruct (write_each_outside pages (write (make_table pages) w)
                  (position w + Z.of_nat k)) as [_ ->].
      * unfold write, write_bytes. cbn [position]. lia.
      * by apply write_bytes_stored.
  - exists (plan_from (drop 1 ten_headers) 1
              {| index := 0; type := persistent; begin := 0; end_ := 0;
                 offset_bytes := 0; size_bytes := 1000000 |}).
    split; [|split].
    + unfold ten_headers. simpl replicate. apply plan_pages_from.
    + vm_compute. reflexivity.
    + vm_compute. reflexivity.
Qed.

Lemma write_pages_body_buffer_size_witness :
  ten_headers <> [] /\ wf_headers ten_headers /\
  exists pages, plan_pages fresh_writer ten_headers = Ok pages /\
    body_buffer_size (make_table pages) = sum_persistent pages + max_swap pages.
Proof.
  split; [done|]. split; [exact wf_ten_headers|].
  destruct (proj1 (write_pages_body_buffer_size fresh_writer ten_headers []))
    as (pages & Hp & Hb & _); [done | exact wf_ten_headers |].
  exists pages. split; [exact Hp | exact Hb].
Defined.

(** C6. When the planner produces more than [KM_MAX_PAGES] = 8 pages,
    [write_pages] ends fatally on its assertion with the writer untouched;
    otherwise it writes a table with [num_pages] the number of pages,
    [max_pages] = [KM_MAX_PAGES] and [num_pages <= max_pages], followed by
    the pages. *)
Theorem write_pages_page_cap (w : binary_writer) (headers : list node_header)
    (nodes : list node) (pages : list memory_page) :
  plan_pages w headers = Ok pages ->
  KM_MAX_PAGES = 8 /\
  (KM_MAX_PAGES < Z.of_nat (length pages) ->
     write_pages w headers nodes = Fatal AssertionFailed w) /\
  (Z.of_nat (length pages) <= KM_MAX_PAGES ->
     let table := make_table pages in
     write_pages w headers nodes =
       Ok (foldl (fun wr page => write page wr) (write table w) pages) /\
     num_pages table = Z.of_nat (length pages) /\
     max_pages table = KM_MAX_PAGES /\
     num_pages table <= max_pages table).
Proof.
  intros Hplan. split; [reflexivity|].
  rewrite (write_pages_unfold _ _ _ _ Hplan). split.
  - intros Hgt. destruct (Z.leb_spec (Z.of_nat (length pages)) KM_MAX_PAGES); [lia|done].
  - intros Hle. destruct (Z.leb_spec (Z.of_nat (length pages)) KM_MAX_PAGES); [|lia].
    assert (num_pages (make_table pages) = Z.of_nat (length pages)) as Hn.
    { unfold make_table. destruct (foldl _ _ _). simpl.
      apply wrap32_small. unfold is_uint32, KM_MAX_PAGES in *. lia. }
    cbv zeta. rewrite Hn. repeat split; try done.
    unfold make_table. by destruct (foldl _ _ _).
    unfold make_table. destruct (foldl _ _ _). simpl. lia.
Qed.

Lemma write_pages_page_cap_witness :
  exists pages, plan_pages fresh_writer nine_large_headers = Ok pages /\
    length pages = 9%nat /\
    write_pages fresh_writer nine_large_headers [] = Fatal AssertionFailed fresh_writer.
Proof.
  assert (plan_pages fresh_writer nine_large_headers
          = Ok (plan_from (drop 1 nine_large_headers) 1
                  {| index := 0; type := persistent; begin := 0; end_ := 0;
                     offset_bytes := 0; size_bytes := 2400000 |})) as Hp
    by (vm_compute; reflexivity).
  eexists. split; [exact Hp|]. split; [reflexivity|].
  apply (write_pages_page_cap fresh_writer nine_large_headers [] _ Hp).
  vm_compute. reflexivity.
Defined.

(** [write_pages] fails only on the access to [headers[0]] or on its
    assertion, each time before anything is written. *)
Lemma write_pages_fatal w headers nodes e w' :
  write_pages w headers nodes = Fatal e w' ->
  w' = w /\ (e = IndexOutOfBounds \/ e = AssertionFailed) /\
  (e = IndexOutOfBounds -> headers = []).
Proof.
  intros Hw. destruct (plan_pages w headers) as [pages|e0 w0] eqn:Hp.
  - rewrite (write_pages_unfold _ _ _ _ Hp) in Hw.
    destruct (_ <=? _); [discriminate|]. injection Hw as <- <-.
    split; [done|]. split; [by right | discriminate].
  - destruct (plan_pages_fatal _ _ _ _ Hp) as (-> & -> & ->).
    unfold write_pages in Hw. rewrite Hp in Hw. simpl in Hw.
    injection Hw as <- <-. split; [done|]. split; [by left | done].
Qed.

(** * The node bodies *)

(** One body: where it lands, its padding and its header. *)
Lemma emit_body_spec body w hs :
  let start := position w in
  let len := Z.of_nat (length (body_bytes body)) in
  let w' := (emit_body body w hs).1 in
  start + len <= position w' < start + len + 8 /\
  position w' mod 8 = 0 /\
  (forall (k : nat) b, body_bytes body !! k = Some b ->
     stream w' !! (start + Z.of_nat k) = Some b) /\
  (forall q, start + len <= q < position w' -> stream w' !! q = Some zero_byte) /\
  (forall q, q < start -> stream w' !! q = stream w !! q) /\
  (emit_body body w hs).2 =
    hs ++ [{| opcode := body_opcode body;
              body_size := wrap32 (position w' - start) |}].
Proof.
  cbv zeta. unfold emit_body. simpl fst. simpl snd.
  set (w1 := write_bytes (body_bytes body) w).
  assert (position w1 = position w + Z.of_nat (length (body_bytes body))) as Hp1
    by reflexivity.
  destruct (align_position_8 w1) as (Hpos & Hmod & Hzero & Hkeep).
  rewrite Hp1 in *. repeat split; try lia; try done.
  - intros k b Hk. pose proof (lookup_lt_Some _ _ _ Hk).
    rewrite Hkeep by lia. by apply write_bytes_stored.
  - intros q Hq. rewrite Hkeep by lia. subst w1. by rewrite write_bytes_outside by lia.
Qed.

Section Bodies.
Context `{external_defs}.
Variable G : registry.

Lemma emit_bodies_cons context n rest w hs :
  emit_bodies G context (n :: rest) w hs =
  body ← call_emitter G n (with_writer context w);
  match body with
  | Some body =>
      emit_bodies G context rest (emit_body body w hs).1 (emit_body body w hs).2
  | None => emit_bodies G context rest w hs
  end.
Proof.
  simpl. destruct (call_emitter G n (with_writer context w)) as [[body|]|e w0];
    reflexivity.
Qed.

Lemma emit_bodies_app context pre : forall post w hs,
  emit_bodies G context (pre ++ post) w hs =
  '(w1, hs1) ← emit_bodies G context pre w hs;
  emit_bodies G context post w1 hs1.
Proof.
  induction pre as [|n pre IH]; intros post w hs; [done|].
  rewrite <- app_comm_cons, !emit_bodies_cons.
  destruct (call_emitter G n (with_writer context w)) as [[body|]|e w0]; simpl;
    auto.
Qed.

(** The headers only grow, and once a body has been written the writer
    rests on a multiple of 8. *)
Lemma emit_bodies_aligned context runtime_nodes : forall w hs w1 hs1,
  emit_bodies G context runtime_nodes w hs = Ok (w1, hs1) ->
  exists new, hs1 = hs ++ new /\
    (length new <= length runtime_nodes)%nat /\
    (new = [] -> w1 = w) /\
    (new <> [] -> position w1 mod 8 = 0).
Proof.
  induction runtime_nodes as [|n rest IH]; intros w hs w1 hs1.
  - intros [= <- <-]. exists []. rewrite app_nil_r. done.
  - rewrite emit_bodies_cons.
    destruct (call_emitter G n (with_writer context w)) as [[body|]|e w0];
      cbv [mbind result_bind]; [| |discriminate].
    + destruct (emit_body_spec body w hs) as (_ & Hmod & _ & _ & _ & Hhs).
      cbv zeta in Hmod, Hhs. rewrite Hhs.
      intros Hrest. destruct (IH _ _ _ _ Hrest) as (new & -> & Hlen & Hnil & Hcons).
      eexists (_ :: new). split; [by rewrite <- app_assoc|].
      split; [simpl; lia|]. split; [done|]. intros _.
      destruct new as [|h new]; [rewrite Hnil by done; exact Hmod | by apply Hcons].
    + intros Hrest. destruct (IH _ _ _ _ Hrest) as (new & -> & Hlen & Hnil & Hcons).
      exists new. repeat split; auto. simpl. lia.
Qed.

(** The headers that the loop appends carry [uint32_t] sizes, as the page
    planner expects of its input. *)
Lemma emit_bodies_uint32 context runtime_nodes : forall w hs w1 hs1,
  emit_bodies G context runtime_nodes w hs = Ok (w1, hs1) ->
  Forall (fun h => is_uint32 (body_size h)) hs ->
  Forall (fun h => is_uint32 (body_size h)) hs1.
Proof.
  induction runtime_nodes as [|n rest IH]; intros w hs w1 hs1.
  - by intros [= <- <-].
  - rewrite emit_bodies_cons.
    destruct (call_emitter G n (with_writer context w)) as [[body|]|e w0];
      cbv [mbind result_bind]; [| |discriminate]; [|by apply IH].
    destruct (emit_body_spec body w hs) as (_ & _ & _ & _ & _ & Hhs).
    rewrite Hhs. intros Hrest Hall. apply (IH _ _ _ _ Hrest).
    apply Forall_app. split; [done|]. constructor; [|constructor].
    simpl. unfold is_uint32, wrap32. apply Z.mod_pos_bound. lia.
Qed.

End Bodies.

(** * The serializer *)

Section GencodeFacts.
Context `{external_defs}.
Variable G : registry.

Lemma classify_node_runtime_nodes context n c c' :
  classify_node G context n c = Ok c' ->
  cl_runtime_nodes c' =
  cl_runtime_nodes c ++ (if enabled G n then [n] else []).
Proof.
  unfold classify_node, enabled.
  destruct (is_disabled G (runtime_opcode n)); simpl negb; cbv iota;
    repeat (destruct (_ =? _));
    repeat match goal with
           | |- context [output_at ?c ?n ?i] => destruct (output_at c n i); simpl
           | |- context [input_connection ?c ?n ?i] =>
               destruct (input_connection c n i); simpl
           | |- context [get_allocation ?c ?x] => destruct (get_allocation c x); simpl
           end;
    intros [= <-]; simpl; by rewrite ?app_nil_r.
Qed.

Lemma classify_runtime_nodes context compute_sequence : forall c c',
  classify G context compute_sequence c = Ok c' ->
  cl_runtime_nodes c' = cl_runtime_nodes c ++ List.filter (enabled G) compute_sequence.
Proof.
  induction compute_sequence as [|n rest IH]; intros c c'; simpl.
  - intros [= <-]. by rewrite app_nil_r.
  - destruct (classify_node G context n c) as [c1|] eqn:Hn; simpl; [|discriminate].
    intros Hrest. rewrite (IH _ _ Hrest), (classify_node_runtime_nodes _ _ _ _ Hn).
    destruct (enabled G n); simpl; by rewrite <- ?app_assoc, ?app_nil_r.
Qed.

Lemma filter_disabled_length (l : list node) :
  (length (List.filter (enabled G) l) +
   length (List.filter (fun n => is_disabled G (runtime_opcode n)) l) = length l)%nat.
Proof.
  induction l as [|n l IH]; simpl; [done|]. unfold enabled at 1.
  destruct (is_disabled G (runtime_opcode n)); simpl; lia.
Qed.

Lemma filter_enabled_drop pre n post :
  is_disabled G (runtime_opcode n) = true ->
  List.filter (enabled G) (pre ++ n :: post) = List.filter (enabled G) (pre ++ post).
Proof.
  intros Hd. rewrite !List.filter_app. simpl. unfold enabled at 2. by rewrite Hd.
Qed.

Lemma filter_enabled_not_in n l :
  is_disabled G (runtime_opcode n) = true -> n ∉ List.filter (enabled G) l.
Proof.
  intros Hd Hin. apply list_elem_of_In, List.filter_In in Hin as [_ Hen].
  unfold enabled in Hen. by rewrite Hd in Hen.
Qed.

Lemma classify_app context l1 : forall l2 c,
  classify G context (l1 ++ l2) c =
  c1 ← classify G context l1 c; classify G context l2 c1.
Proof.
  induction l1 as [|n l1 IH]; intros l2 c; [reflexivity|].
  cbn [app classify]. destruct (classify_node G context n c) as [c1|];
    cbv [mbind result_bind]; [apply IH | reflexivity].
Qed.

(** The first loop passes over a disabled node that is no marker. *)
Lemma classify_node_disabled_plain context n c :
  is_disabled G (runtime_opcode n) = true ->
  is_input_marker n = false -> is_output_marker n = false ->
  is_constant_marker n = false ->
  classify_node G context n c = Ok c.
Proof.
  unfold classify_node, is_output_marker, is_constant_marker, is_input_marker.
  intros -> Hi. rewrite Hi. simpl negb. cbn [andb]. intros Ho. rewrite Ho.
  cbn [negb andb]. by intros ->.
Qed.

Lemma classify_drop_plain context pre n post c :
  is_disabled G (runtime_opcode n) = true ->
  is_input_marker n = false -> is_output_marker n = false ->
  is_constant_marker n = false ->
  classify G context (pre ++ n :: post) c = classify G context (pre ++ post) c.
Proof.
  intros Hd Hi Ho Hc. rewrite !classify_app.
  destruct (classify G context pre c) as [c1|]; cbv [mbind result_bind]; [|done].
  cbn [classify]. by rewrite classify_node_disabled_plain.
Qed.

Lemma gencode_drop_plain context pre n post :
  is_disabled G (runtime_opcode n) = true ->
  is_input_marker n = false -> is_output_marker n = false ->
  is_constant_marker n = false ->
  gencode G context (pre ++ n :: post) = gencode G context (pre ++ post).
Proof.
  intros Hd Hi Ho Hc. unfold gencode, gencode_prologue.
  by rewrite classify_drop_plain.
Qed.

(** What the prologue hands over to the body loop. *)
Lemma gencode_prologue_spec context compute_sequence c mh pos w :
  gencode_prologue G context compute_sequence = Ok (c, mh, pos, w) ->
  classify G context compute_sequence no_nodes = Ok c /\
  mh = make_model_header context c /\
  position w =
    pos + sizeof node_header * Z.of_nat (length (cl_runtime_nodes c)) + page_bytes mh /\
  position (writer_ context) <= pos /\
  (forall (k : nat) b, to_bytes mh !! k = Some b ->
     stream w !! (position (writer_ context) + Z.of_nat k) = Some b).
Proof.
  unfold gencode_prologue.
  destruct (classify G context compute_sequence no_nodes) as [c0|]; simpl;
    [|discriminate].
  destruct (fill_constants _ _ _) as [const_mem|]; simpl; [|discriminate].
  intros [= <- <- <- <-]. split; [done|]. split; [done|]. split; [done|].
  unfold write_array, write. split.
  - simpl. lia.
  - intros k b Hk. pose proof (lookup_lt_Some _ _ _ Hk).
    cbn [stream set_position].
    rewrite !write_bytes_outside by (simpl; lia).
    by apply write_bytes_stored.
Qed.

Lemma make_model_header_flags context c :
  flags (make_model_header context c) = KM_NODE_PAGING.
Proof. reflexivity. Qed.

Lemma page_bytes_bit mh :
  page_bytes mh <> 0 <-> Z.testbit (flags mh) 3 = true.
Proof.
  unfold page_bytes, KM_MAX_PAGES. simpl sizeof.
  change 8 with (2 ^ 3) at 2.
  destruct (Z.eqb_spec (Z.land (flags mh) (2 ^ 3)) 0) as [Hz|Hnz].
  - split; [lia|]. intros Hb.
    assert (Z.testbit (Z.land (flags mh) (2 ^ 3)) 3 = true) as Hl
      by (rewrite Z.land_spec, Hb, Z.pow2_bits_true; done).
    rewrite Hz in Hl. by rewrite Z.bits_0 in Hl.
  - split; [|lia]. intros _.
    destruct (Z.testbit (flags mh) 3) eqn:Hb; [done|]. exfalso. apply Hnz.
    apply Z.bits_inj'. intros n Hn. rewrite Z.land_spec, Z.bits_0.
    destruct (decide (n = 3)) as [->|Hne]; [by rewrite Hb|].
    rewrite Z.pow2_bits_false by lia. apply andb_false_r.
Qed.

Lemma write_back_paged context c runtime_nodes pos w hs :
  write_back (make_model_header context c) runtime_nodes pos w hs =
  w' ← write_pages (write_array hs (set_position pos w)) hs runtime_nodes;
  Ok (set_position (position w) w').
Proof. reflexivity. Qed.

Lemma emit_bodies_dispatched context runtime_nodes : forall w hs r,
  emit_bodies G context runtime_nodes w hs = Ok r ->
  forall n, n ∈ runtime_nodes ->
    is_Some (g_emitters G !! runtime_opcode n) \/
    is_disabled G (runtime_opcode n) = true.
Proof.
  induction runtime_nodes as [|n0 rest IH]; intros w hs r Hr n Hn.
  - by apply elem_of_nil in Hn.
  - rewrite emit_bodies_cons in Hr.
    assert (is_Some (g_emitters G !! runtime_opcode n0) \/
            is_disabled G (runtime_opcode n0) = true) as H0.
    { unfold call_emitter in Hr.
      destruct (g_emitters G !! runtime_opcode n0); [left; eauto|].
      destruct (is_disabled G (runtime_opcode n0)); [by right | discriminate]. }
    apply elem_of_cons in Hn as [->|Hn]; [done|].
    destruct (call_emitter G n0 (with_writer context w)) as [[body|]|];
      cbv [mbind result_bind] in Hr; [| |discriminate]; eapply IH; eauto.
Qed.

Lemma emit_bodies_all_emit context runtime_nodes : forall w hs w' hs',
  (forall n ctx', n ∈ runtime_nodes ->
     exists body, call_emitter G n ctx' = Ok (Some body)) ->
  emit_bodies G context runtime_nodes w hs = Ok (w', hs') ->
  length hs' = (length hs + length runtime_nodes)%nat.
Proof.
  induction runtime_nodes as [|n rest IH]; intros w hs w' hs' Hall.
  - intros [= <- <-]. simpl. lia.
  - rewrite emit_bodies_cons.
    destruct (Hall n (with_writer context w)) as [body ->]; [by left|].
    cbv [mbind result_bind].
    destruct (emit_body_spec body w hs) as (_ & _ & _ & _ & _ & Hhs).
    intros Hrest. apply IH in Hrest.
    + rewrite Hrest, Hhs, length_app. simpl. lia.
    + intros n' ctx' Hn'. apply Hall. by right.
Qed.

End GencodeFacts.

(** * Claims about the serializer *)

(** C9. [write_pages] reads [headers[0]] before it looks at the size of the
    vector, so its out-of-bounds outcome occurs exactly on the empty vector;
    [gencode] calls it whenever the body loop ends, also when no node
    produced a body, and then ends on that access. *)
Theorem write_pages_empty_headers_out_of_bounds `{external_defs}
    (G : registry) (context : codegen_context) :
  (forall w headers nodes,
     write_pages w headers nodes = Fatal IndexOutOfBounds w <-> headers = []) /\
  (forall compute_sequence c mh pos w w1,
     gencode_prologue G context compute_sequence = Ok (c, mh, pos, w) ->
     emit_bodies G context (cl_runtime_nodes c) w [] = Ok (w1, []) ->
     gencode G context compute_sequence =
       Fatal IndexOutOfBounds (write_array [] (set_position pos w1))) /\
  (exists w, gencode G context [] = Fatal IndexOutOfBounds w).
Proof.
  assert (forall compute_sequence c mh pos w w1,
     gencode_prologue G context compute_sequence = Ok (c, mh, pos, w) ->
     emit_bodies G context (cl_runtime_nodes c) w [] = Ok (w1, []) ->
     gencode G context compute_sequence =
       Fatal IndexOutOfBounds (write_array [] (set_position pos w1))) as Hgen.
  { intros compute_sequence c mh pos w w1 Hpro Hbodies.
    destruct (gencode_prologue_spec _ _ _ _ _ _ _ Hpro) as (_ & -> & _).
    unfold gencode. rewrite Hpro. simpl. rewrite Hbodies. reflexivity. }
  split; [|split; [exact Hgen|]].
  - intros w headers nodes. split.
    + intros Hw. by destruct (write_pages_fatal _ _ _ _ _ Hw) as (_ & _ & ->).
    + intros ->. reflexivity.
  - eexists. eapply Hgen; reflexivity.
Qed.

Lemma write_pages_empty_headers_out_of_bounds_witness :
  exists w,
    gencode sample_registry sample_context [sample_node 3]
    = Fatal IndexOutOfBounds w.
Proof.
  eexists.
  eapply (proj1 (proj2 (write_pages_empty_headers_out_of_bounds
                          sample_registry sample_context)));
    reflexivity.
Defined.

(** C10. Paging cannot be switched off: the header that [gencode] builds
    always carries the paging bit, the header is in the stream when the
    prologue has run, the write-back always calls [write_pages], and a run
    of [gencode] that ends normally has gone through a successful
    [write_pages]. *)
Theorem gencode_paging_always_enabled `{external_defs} (G : registry)
    (context : codegen_context) (compute_sequence : list node) :
  (forall c,
     Z.land (flags (make_model_header context c)) KM_NODE_PAGING = KM_NODE_PAGING /\
     KM_NODE_PAGING <> 0) /\
  (forall c mh pos w,
     gencode_prologue G context compute_sequence = Ok (c, mh, pos, w) ->
     Z.land (flags mh) KM_NODE_PAGING <> 0 /\
     forall (k : nat) b, to_bytes mh !! k = Some b ->
       stream w !! (position (writer_ context) + Z.of_nat k) = Some b) /\
  (forall c runtime_nodes pos w hs,
     write_back (make_model_header context c) runtime_nodes pos w hs =
     w' ← write_pages (write_array hs (set_position pos w)) hs runtime_nodes;
     Ok (set_position (position w) w')) /\
  (forall w', gencode G context compute_sequence = Ok w' ->
     exists c mh pos w0 w hs wp,
       gencode_prologue G context compute_sequence = Ok (c, mh, pos, w0) /\
       emit_bodies G context (cl_runtime_nodes c) w0 [] = Ok (w, hs) /\
       write_pages (write_array hs (set_position pos w)) hs (cl_runtime_nodes c)
         = Ok wp /\
       w' = set_position (position w) wp).
Proof.
  split; [|split; [|split]].
  - intros c. rewrite make_model_header_flags. done.
  - intros c mh pos w Hpro.
    destruct (gencode_prologue_spec _ _ _ _ _ _ _ Hpro) as (_ & -> & _ & _ & Hbytes).
    split; [by rewrite make_model_header_flags | exact Hbytes].
  - intros. apply write_back_paged.
  - intros w' Hgen. unfold gencode in Hgen.
    destruct (gencode_prologue G context compute_sequence)
      as [[[[c mh] pos] w0]|] eqn:Hpro; [|discriminate].
    cbv [mbind result_bind] in Hgen.
    destruct (emit_bodies G context (cl_runtime_nodes c) w0 [])
      as [[w hs]|] eqn:Hbodies; [|discriminate].
    destruct (gencode_prologue_spec _ _ _ _ _ _ _ Hpro) as (_ & -> & _).
    rewrite write_back_paged in Hgen.
    destruct (write_pages _ hs (cl_runtime_nodes c)) as [wp|] eqn:Hwp;
      [|discriminate].
    injection Hgen as <-.
    by exists c, (make_model_header context c), pos, w0, w, hs, wp.
Qed.

Lemma gencode_paging_always_enabled_witness :
  exists w' hs wp w,
    gencode sample_registry sample_context
      [sample_node 16; sample_node 3; sample_node 16] = Ok w' /\
    write_pages w hs [sample_node 16; sample_node 16] = Ok wp.
Proof.
  destruct (gencode sample_registry sample_context
              [sample_node 16; sample_node 3; sample_node 16]) as [w'|] eqn:Hgen;
    [|vm_compute in Hgen; discriminate].
  destruct (proj2 (proj2 (proj2 (gencode_paging_always_enabled
              sample_registry sample_context
              [sample_node 16; sample_node 3; sample_node 16]))) w' Hgen)
    as (c & mh & pos & w0 & w & hs & wp & Hpro & _ & Hwp & _).
  assert (cl_runtime_nodes c = [sample_node 16; sample_node 16]) as Hc
    by (vm_compute in Hpro; by injection Hpro as <- _ _ _).
  rewrite Hc in Hwp. by exists w', hs, wp, (write_array hs (set_position pos w)).
Defined.

(** C1. The reservation of page-table space is guarded by
    [flags & KM_MAX_PAGES], not by the paging flag: with the paging flag set,
    as [gencode] always sets it, [page_bytes] is 0 and the first body starts
    right after the node-header table, so the page table written afterwards
    lands on the bodies.  In the sample run the first body byte at offset 44
    is overwritten by the table. *)
Theorem page_table_space_not_reserved `{external_defs} (G : registry)
    (context : codegen_context) (compute_sequence : list node) :
  (forall c, Z.land (flags (make_model_header context c)) KM_NODE_PAGING <> 0 /\
             page_bytes (make_model_header context c) = 0) /\
  (forall mh, page_bytes mh <> 0 <-> Z.testbit (flags mh) 3 = true) /\
  (forall c mh pos w,
     gencode_prologue G context compute_sequence = Ok (c, mh, pos, w) ->
     position w = pos + sizeof node_header * Z.of_nat (length (cl_runtime_nodes c))) /\
  (exists c mh w0 w1 hs w',
     gencode_prologue (H := sample_defs) sample_registry sample_context
       [sample_node 16] = Ok (c, mh, 36, w0) /\
     position w0 = 44 /\
     emit_bodies sample_registry sample_context [sample_node 16] w0 [] = Ok (w1, hs) /\
     stream w1 !! 44 = Some Byte.xff /\
     gencode (H := sample_defs) sample_registry sample_context [sample_node 16]
       = Ok w' /\
     stream w' !! 44 = Some Byte.x01).
Proof.
  split; [|split; [|split]].
  - intros c. rewrite make_model_header_flags. done.
  - apply page_bytes_bit.
  - intros c mh pos w Hpro.
    destruct (gencode_prologue_spec _ _ _ _ _ _ _ Hpro) as (_ & -> & -> & _).
    change (page_bytes (make_model_header context c)) with 0. lia.
  - do 6 eexists.
    split; [reflexivity|]. split; [reflexivity|]. split; [reflexivity|].
    split; [vm_compute; reflexivity|]. split; [reflexivity|].
    vm_compute; reflexivity.
Qed.

(** C7, as amended.  Dispatch: a registered emitter is called and its body
    is what the loop writes; an opcode that is neither registered nor
    disabled ends the run with the unregistered-operator error, and
    [gencode] cannot end normally on a sequence that has such a node; a
    disabled opcode gives no body.  A node of a disabled opcode never enters
    [runtime_nodes]: the body loop does not dispatch it, so it adds no header
    and no body bytes, and the node count is the length of the sequence less
    the number of disabled nodes.  When the disabled node is not an input,
    output or constant marker, the run of [gencode] is the one on the
    sequence without the node: same stream, same position, same outcome.
    When it is such a marker the list of runtime nodes is still the same,
    and the body loop started from the same writer does the same; but the
    marker keeps its entry in the tables in front of the bodies, so the
    writer the loop starts from can differ.  Every remaining node adds at
    most one header (exactly one when its emitter returns a body). *)
Theorem dispatch_and_disabled_nodes `{external_defs} (G : registry)
    (context : codegen_context) :
  (forall n emitter,
     g_emitters G !! runtime_opcode n = Some emitter ->
     call_emitter G n context = Ok (emitter n context)) /\
  (forall n,
     g_emitters G !! runtime_opcode n = None ->
     call_emitter G n context =
       if is_disabled G (runtime_opcode n) then Ok None
       else Fatal (EmitterNotFound (runtime_opcode n)) (writer_ context)) /\
  (forall n rest w hs emitter body,
     g_emitters G !! runtime_opcode n = Some emitter ->
     emitter n (with_writer context w) = Some body ->
     emit_bodies G context (n :: rest) w hs =
     emit_bodies G context rest (emit_body body w hs).1 (emit_body body w hs).2) /\
  (forall pre n post w hs w1 hs1,
     g_emitters G !! runtime_opcode n = None ->
     is_disabled G (runtime_opcode n) = false ->
     emit_bodies G context pre w hs = Ok (w1, hs1) ->
     emit_bodies G context (pre ++ n :: post) w hs =
       Fatal (EmitterNotFound (runtime_opcode n)) w1) /\
  (forall compute_sequence n,
     n ∈ compute_sequence ->
     g_emitters G !! runtime_opcode n = None ->
     is_disabled G (runtime_opcode n) = false ->
     forall w, gencode G context compute_sequence <> Ok w) /\
  (forall compute_sequence c mh pos w,
     gencode_prologue G context compute_sequence = Ok (c, mh, pos, w) ->
     cl_runtime_nodes c = List.filter (enabled G) compute_sequence /\
     (forall n, n ∈ compute_sequence ->
        is_disabled G (runtime_opcode n) = true -> n ∉ cl_runtime_nodes c) /\
     Z.of_nat (length (cl_runtime_nodes c)) =
       Z.of_nat (length compute_sequence) -
       Z.of_nat (length (List.filter (fun n => is_disabled G (runtime_opcode n))
                           compute_sequence)) /\
     nodes mh = wrap32 (Z.of_nat (length (cl_runtime_nodes c)))) /\
  (forall pre n post,
     is_disabled G (runtime_opcode n) = true ->
     is_input_marker n = false -> is_output_marker n = false ->
     is_constant_marker n = false ->
     gencode G context (pre ++ n :: post) = gencode G context (pre ++ post)) /\
  (forall pre n post c c',
     is_disabled G (runtime_opcode n) = true ->
     classify G context (pre ++ n :: post) no_nodes = Ok c ->
     classify G context (pre ++ post) no_nodes = Ok c' ->
     cl_runtime_nodes c = cl_runtime_nodes c' /\
     forall w hs,
       emit_bodies G context (cl_runtime_nodes c) w hs =
       emit_bodies G context (cl_runtime_nodes c') w hs) /\
  (forall runtime_nodes w hs w' hs',
     emit_bodies G context runtime_nodes w hs = Ok (w', hs') ->
     exists new, hs' = hs ++ new /\
       (length new <= length runtime_nodes)%nat /\
       ((forall n ctx', n ∈ runtime_nodes ->
           exists body, call_emitter G n ctx' = Ok (Some body)) ->
        length new = length runtime_nodes)).
Proof.
  repeat apply conj.
  - intros n emitter He. unfold call_emitter. cbv zeta. by rewrite He.
  - intros n He. unfold call_emitter. cbv zeta. by rewrite He.
  - intros n rest w hs emitter body He Hb.
    rewrite emit_bodies_cons. unfold call_emitter. cbv zeta. rewrite He. simpl.
    by rewrite Hb.
  - intros pre n post w hs w1 hs1 He Hd Hpre.
    rewrite emit_bodies_app, Hpre. cbv [mbind result_bind].
    rewrite emit_bodies_cons. unfold call_emitter. cbv zeta. rewrite He, Hd.
    reflexivity.
  - intros compute_sequence n Hn He Hd w Hgen. unfold gencode in Hgen.
    destruct (gencode_prologue G context compute_sequence)
      as [[[[c mh] pos] w0]|] eqn:Hpro; [|discriminate].
    cbv [mbind result_bind] in Hgen.
    destruct (emit_bodies G context (cl_runtime_nodes c) w0 [])
      as [[w1 hs]|] eqn:Hbodies; [|discriminate].
    destruct (gencode_prologue_spec _ _ _ _ _ _ _ Hpro) as (Hcl & _).
    apply classify_runtime_nodes in Hcl. simpl in Hcl.
    assert (n ∈ cl_runtime_nodes c) as Hin.
    { rewrite Hcl. apply list_elem_of_In, List.filter_In.
      split; [by apply list_elem_of_In|]. unfold enabled. by rewrite Hd. }
    destruct (emit_bodies_dispatched _ _ _ _ _ _ Hbodies n Hin) as [[e He']|Hd'];
      congruence.
  - intros compute_sequence c mh pos w Hpro.
    destruct (gencode_prologue_spec _ _ _ _ _ _ _ Hpro) as (Hcl & -> & _).
    apply classify_runtime_nodes in Hcl. simpl in Hcl. split; [done|].
    split; [|split; [|reflexivity]].
    + intros n _ Hd. rewrite Hcl. by apply filter_enabled_not_in.
    + rewrite Hcl. pose proof (filter_disabled_length G compute_sequence). lia.
  - intros pre n post. apply gencode_drop_plain.
  - intros pre n post c c' Hd Hc Hc'.
    apply classify_runtime_nodes in Hc, Hc'. simpl in Hc, Hc'.
    assert (cl_runtime_nodes c = cl_runtime_nodes c') as Heq
      by (rewrite Hc, Hc'; by apply filter_enabled_drop).
    split; [done|]. intros w hs. by rewrite Heq.
  - intros runtime_nodes w hs w' hs' Hbodies.
    destruct (emit_bodies_aligned _ _ _ _ _ _ _ Hbodies) as (new & -> & Hlen & _).
    exists new. split; [done|]. split; [done|]. intros Hall.
    pose proof (emit_bodies_all_emit _ _ _ _ _ _ _ Hall Hbodies) as Hl.
    rewrite length_app in Hl. lia.
Qed.

(** A run that ends normally with a disabled node in the sequence: the
    output is the output for the two other nodes. *)
Lemma dispatch_and_disabled_nodes_witness :
  is_disabled sample_registry (runtime_opcode (sample_node 3)) = true /\
  exists w,
    gencode sample_registry sample_context
      [sample_node 16; sample_node 3; sample_node 16] = Ok w /\
    gencode sample_registry sample_context
      [sample_node 16; sample_node 16] = Ok w.
Proof.
  split; [reflexivity|].
  destruct (dispatch_and_disabled_nodes sample_registry sample_context)
    as (_ & _ & _ & _ & _ & _ & Hplain & _).
  pose proof (Hplain [sample_node 16] (sample_node 3) [sample_node 16]
                eq_refl eq_refl eq_refl eq_refl) as Hdrop.
  cbn [app] in Hdrop. rewrite Hdrop.
  destruct (gencode sample_registry sample_context
              [sample_node 16; sample_node 16]) as [w|e w] eqn:Hgen;
    [|vm_compute in Hgen; discriminate].
  by exists w.
Defined.

(** C7 fails as stated when the disabled node is an input marker.  With the
    input and constant opcodes disabled, the sequence of the sample input
    marker and one compute node has the same runtime nodes as the compute
    node alone, but the marker keeps its range and its shape in the tables
    of the prologue: the node headers go to offset 80 instead of 44, the
    body starts at 88 instead of 52, and the 5-byte body is padded to 8
    bytes instead of 12, which is what its header records. *)
Lemma disabled_marker_changes_neighbour :
  is_disabled neutral_registry (runtime_opcode sample_input_node) = true /\
  (exists c mh w0 wb,
     gencode_prologue neutral_registry sample_context_with_constants
       [sample_input_node; sample_node 16] = Ok (c, mh, 80, w0) /\
     cl_runtime_nodes c = [sample_node 16] /\
     position w0 = 88 /\
     emit_bodies neutral_registry sample_context_with_constants
       (cl_runtime_nodes c) w0 []
     = Ok (wb, [{| opcode := 16; body_size := 8 |}])) /\
  (exists c mh w0 wb,
     gencode_prologue neutral_registry sample_context_with_constants
       [sample_node 16] = Ok (c, mh, 44, w0) /\
     cl_runtime_nodes c = [sample_node 16] /\
     position w0 = 52 /\
     emit_bodies neutral_registry sample_context_with_constants
       (cl_runtime_nodes c) w0 []
     = Ok (wb, [{| opcode := 16; body_size := 12 |}])) /\
  gencode neutral_registry sample_context_with_constants
    [sample_input_node; sample_node 16]
  <> gencode neutral_registry sample_context_with_constants [sample_node 16].
Proof.
  split; [reflexivity|]. split; [|split].
  - do 4 eexists. repeat apply conj; reflexivity.
  - do 4 eexists. repeat apply conj; reflexivity.
  - vm_compute. discriminate.
Defined.

(** C8, as amended.  A body written by the loop of [gencode] is followed by
    zero bytes up to the next stream position that is a multiple of 8, and
    its header records the span from its start to that position, reduced to
    32 bits by the [uint32_t] cast (the span itself when it is below 2^32).
    A body that follows another one starts at a stream position that is a
    multiple of 8; its offset from the start of the body region is a multiple
    of 8 when the body region starts at a multiple of 8. *)
Theorem gencode_body_alignment `{external_defs} (G : registry)
    (context : codegen_context) (pre : list node) (n : node) (post : list node)
    (w : binary_writer) (hs : list node_header)
    (w1 : binary_writer) (hs1 : list node_header) (body : node_body) :
  emit_bodies G context pre w hs = Ok (w1, hs1) ->
  call_emitter G n (with_writer context w1) = Ok (Some body) ->
  let start := position w1 in
  let len := Z.of_nat (length (body_bytes body)) in
  let w2 := (emit_body body w1 hs1).1 in
  let hs2 := (emit_body body w1 hs1).2 in
  emit_bodies G context (pre ++ n :: post) w hs = emit_bodies G context post w2 hs2 /\
  start + len <= position w2 < start + len + 8 /\
  position w2 mod 8 = 0 /\
  (forall (k : nat) b, body_bytes body !! k = Some b ->
     stream w2 !! (start + Z.of_nat k) = Some b) /\
  (forall q, start + len <= q < position w2 -> stream w2 !! q = Some zero_byte) /\
  hs2 = hs1 ++ [{| opcode := body_opcode body;
                   body_size := wrap32 (position w2 - start) |}] /\
  (position w2 - start < 2 ^ 32 ->
     wrap32 (position w2 - start) = position w2 - start) /\
  (hs1 <> hs -> start mod 8 = 0) /\
  (position w mod 8 = 0 -> (start - position w) mod 8 = 0).
Proof.
  intros Hpre Hcall. cbv zeta.
  destruct (emit_body_spec body w1 hs1) as (Hpos & Hmod & Hbody & Hzero & _ & Hhs).
  cbv zeta in Hpos, Hmod, Hbody, Hzero, Hhs.
  destruct (emit_bodies_aligned _ _ _ _ _ _ _ Hpre) as (new & -> & _ & Hnil & Hcons).
  repeat apply conj; try done; try lia.
  - rewrite emit_bodies_app, Hpre. cbv [mbind result_bind].
    rewrite emit_bodies_cons, Hcall. reflexivity.
  - intros Hsmall. apply wrap32_small. unfold is_uint32. lia.
  - intros Hne. apply Hcons. intros ->. by rewrite app_nil_r in Hne.
  - intros Hw. destruct new as [|h new].
    + rewrite Hnil by done. by rewrite Z.sub_diag.
    + specialize (Hcons ltac:(done)).
      rewrite Zminus_mod, Hcons, Hw. reflexivity.
Qed.

Lemma gencode_body_alignment_witness :
  exists w1 hs1 body,
    emit_bodies sample_registry sample_context [sample_node 16] fresh_writer []
      = Ok (w1, hs1) /\
    call_emitter sample_registry (sample_node 16) (with_writer sample_context w1)
      = Ok (Some body) /\
    position w1 mod 8 = 0 /\
    position (emit_body body w1 hs1).1 mod 8 = 0.
Proof.
  do 3 eexists. split; [reflexivity|]. split; [reflexivity|].
  refine ((fun A => conj (proj1 (proj2 (proj2 (proj2 (proj2 (proj2 (proj2 (proj2 A))))))) _)
                         (proj1 (proj2 (proj2 A))))
            (gencode_body_alignment sample_registry sample_context
               [sample_node 16] (sample_node 16) [] fresh_writer [] _ _ _
               eq_refl eq_refl));
    discriminate.
Defined.

(** C8 fails as stated in two ways.  With the sample layout the body region
    of a two-node model starts at offset 52; the first body ends at 57 and
    is padded to 64, so the second body starts 12 bytes into the body region,
    not at a multiple of 8 from its start.  And the header of a body of 2^32
    bytes records a [body_size] of 0, not the span of 2^32 bytes. *)
Lemma body_start_not_relative_multiple_of_8 :
  (exists c mh pos w w1 hs1,
     gencode_prologue sample_registry sample_context
       [sample_node 16; sample_node 16] = Ok (c, mh, pos, w) /\
     cl_runtime_nodes c = [sample_node 16; sample_node 16] /\
     emit_bodies sample_registry sample_context [sample_node 16] w []
       = Ok (w1, hs1) /\
     position w = 52 /\ position w1 = 64 /\
     (position w1 - position w) mod 8 <> 0) /\
  (let r := emit_body huge_body fresh_writer [] in
   position r.1 - position fresh_writer = 2 ^ 32 /\
   r.2 = [{| opcode := 16; body_size := 0 |}]).
Proof.
  split.
  - do 6 eexists. repeat apply conj; try reflexivity. vm_compute. discriminate.
  - cbv zeta.
    destruct (emit_body_spec huge_body fresh_writer [])
      as (Hpos & Hmod & _ & _ & _ & Hhs).
    cbv zeta in Hpos, Hmod, Hhs.
    assert (Z.of_nat (length (body_bytes huge_body)) = 2 ^ 32) as Hlen.
    { unfold huge_body. cbn [body_bytes]. rewrite length_replicate.
      apply Z2Nat.id. lia. }
    rewrite Hlen in Hpos. change (position fresh_writer) with 0 in *.
    assert (position (emit_body huge_body fresh_writer []).1 = 2 ^ 32) as Hend.
    { revert Hpos Hmod. generalize (position (emit_body huge_body fresh_writer []).1).
      intros z Hz Hm. apply Z.mod_divide in Hm; [|lia]. destruct Hm as [q ->]. lia. }
    split; [lia|]. rewrite Hhs, Hend. reflexivity.
Qed.

(** * More on the page planner *)

(** One step of the planner from a state that satisfies the invariant: the
    page under construction is either closed and a new one opened at the
    current node, or extended by the current node. *)
Lemma plan_step_cases headers done h rest current :
  wf_headers headers ->
  headers = done ++ h :: rest -> done <> [] ->
  page_ok headers current ->
  end_ current = Z.of_nat (length done) - 1 ->
  wrap32 (Z.of_nat (length done) + 1) = Z.of_nat (length (done ++ [h])) /\
  exists c closed,
    plan_step current [] (Z.of_nat (length done)) h = (c, closed) /\
    page_ok headers c /\
    end_ c = Z.of_nat (length (done ++ [h])) - 1 /\
    ((TARGET_PAGE_SIZE < size_bytes current + body_size h /\ closed = [current] /\
      begin c = Z.of_nat (length done)) \/
     (size_bytes current + body_size h <= TARGET_PAGE_SIZE /\ closed = [] /\
      index c = index current /\ begin c = begin current /\
      offset_bytes c = offset_bytes current /\ type c = type current /\
      size_bytes c = size_bytes current + body_size h)).
Proof.
  intros Hwf Hh Hne Hok Hend.
  assert (headers !! length done = Some h) as Hl.
  { subst headers. by rewrite list_lookup_middle. }
  assert (Z.of_nat (length done) + 1 <= Z.of_nat (length headers)) as Hn.
  { subst headers. rewrite length_app. simpl. lia. }
  assert (is_uint32 (body_size h)) as Hbh.
  { destruct Hwf as [Hall _]. rewrite Forall_forall in Hall. apply Hall.
    eapply list_elem_of_lookup_2; eauto. }
  assert (0 < Z.of_nat (length done)) as Hpos.
  { destruct done; [done | simpl; lia]. }
  destruct Hok as (Hi & Hb & Hs & Hsum & Hoff & Hbig).
  pose proof (proj2 Hwf) as Hlen. unfold is_uint32 in *.
  split.
  { rewrite length_app. simpl. rewrite wrap32_small; unfold is_uint32; lia. }
  unfold plan_step.
  rewrite (wrap64_small (body_size h + size_bytes current)) by lia.
  destruct (body_size h + size_bytes current >? TARGET_PAGE_SIZE) eqn:Hcmp.
  - rewrite Z.gtb_ltb in Hcmp. apply Z.ltb_lt in Hcmp.
    pose proof (range_sum_prefix headers (begin current) (end_ current)
                  ltac:(lia)) as Hpre.
    pose proof (prefix_sum_bound headers (Z.to_nat (end_ current + 1)) Hwf).
    eexists _, _. split; [reflexivity|].
    split; [|split; [simpl; rewrite length_app; simpl; lia|
      left; simpl; repeat split; (done || lia)]].
    unfold page_ok, is_uint32; simpl.
    rewrite wrap32_small by (unfold is_uint32; lia).
    rewrite wrap64_small by lia.
    repeat split; try lia.
    + symmetry. apply range_sum_single; [lia|]. by rewrite Nat2Z.id.
    + rewrite Hoff, Hsum, Hpre. do 2 f_equal. lia.
  - rewrite Z.gtb_ltb in Hcmp. apply Z.ltb_ge in Hcmp.
    eexists _, _. split; [reflexivity|].
    assert (wrap64 (size_bytes current + body_size h)
            = size_bytes current + body_size h) as Hw
      by (apply wrap64_small; lia).
    split; [|split; [simpl; rewrite length_app; simpl; lia|
      right; simpl; repeat split; (done || lia)]].
    unfold page_ok, is_uint32; simpl. rewrite Hw.
    unfold TARGET_PAGE_SIZE in *.
    repeat split; try lia.
    replace (Z.of_nat (length done)) with (end_ current + 1) by lia.
    rewrite (range_sum_snoc headers (begin current) (end_ current) h);
      [lia | lia |].
    replace (Z.to_nat (end_ current + 1)) with (length done) by lia. done.
Qed.

(** The first page of what is still to come begins where the page under
    construction begins. *)
Lemma plan_from_head rest : forall node current,
  exists p pages, plan_from rest node current = p :: pages /\
    begin p = begin current.
Proof.
  induction rest as [|h rest IH]; intros node current; simpl.
  - by exists current, [].
  - unfold plan_step. destruct (_ >? _); simpl.
    + by exists current, (plan_from rest (wrap32 (node + 1))
         {| index := wrap32 (index current + 1); type := swap; begin := node;
            end_ := node;
            offset_bytes := wrap64 (offset_bytes current + size_bytes current);
            size_bytes := body_size h |}).
    + edestruct IH as (p & pages & -> & Hp). by exists p, pages.
Qed.

(** A page is closed only when the next node does not fit into it. *)
Lemma plan_from_greedy headers : wf_headers headers ->
  forall rest done current,
  headers = done ++ rest -> done <> [] ->
  page_ok headers current ->
  end_ current = Z.of_nat (length done) - 1 ->
  forall i p q h,
    plan_from rest (Z.of_nat (length done)) current !! i = Some p ->
    plan_from rest (Z.of_nat (length done)) current !! S i = Some q ->
    headers !! Z.to_nat (begin q) = Some h ->
    TARGET_PAGE_SIZE < size_bytes p + body_size h.
Proof.
  intros Hwf.
  induction rest as [|h0 rest IH]; intros done current Hh Hne Hok Hend i p q h.
  - simpl. by destruct i.
  - destruct (plan_step_cases _ _ _ _ _ Hwf Hh Hne Hok Hend)
      as (Hw & c & closed & Hstep & Hokc & Hendc & Hcase).
    simpl. rewrite Hstep, Hw.
    assert (headers = (done ++ [h0]) ++ rest) as Hh' by (by rewrite <- app_assoc).
    assert (done ++ [h0] <> []) as Hne' by (by destruct done).
    destruct Hcase as [(Hcut & -> & Hbc)|(Hfit & -> & _)]; simpl.
    + destruct i as [|i]; simpl.
      * intros [= <-] Hq Hlook.
        destruct (plan_from_head rest (Z.of_nat (length (done ++ [h0]))) c)
          as (q0 & pages & Heq & Hb0).
        rewrite Heq in Hq. injection Hq as <-.
        rewrite Hb0, Hbc, Nat2Z.id in Hlook.
        subst headers. rewrite list_lookup_middle in Hlook by done.
        injection Hlook as <-. exact Hcut.
      * apply (IH _ _ Hh' Hne' Hokc Hendc).
    + apply (IH _ _ Hh' Hne' Hokc Hendc).
Qed.

(** Under the budget nothing is ever closed. *)
Lemma plan_from_fits rest : forall node current,
  Forall (fun h => is_uint32 (body_size h)) rest ->
  0 <= size_bytes current ->
  size_bytes current + sum_body rest <= TARGET_PAGE_SIZE ->
  exists p, plan_from rest node current = [p] /\
    index p = index current /\ type p = type current /\
    begin p = begin current /\ offset_bytes p = offset_bytes current /\
    size_bytes p = size_bytes current + sum_body rest.
Proof.
  induction rest as [|h rest IH]; intros node current Hall Hpos Hfit; simpl.
  - exists current. repeat split; lia.
  - inversion Hall as [|? ? Hh Hrest]; subst. simpl in Hfit.
    unfold is_uint32 in Hh.
    pose proof (sum_body_bound rest Hrest) as [Hs _].
    unfold plan_step, TARGET_PAGE_SIZE in *.
    rewrite (wrap64_small (body_size h + size_bytes current)) by lia.
    destruct (Z.gtb_spec (body_size h + size_bytes current) 2300000); [lia|].
    simpl. rewrite wrap64_small by lia.
    edestruct (IH (wrap32 (node + 1))) as (p & -> & ? & ? & ? & ? & ?);
      [done | | | exists p; simpl in *; repeat split; try done; lia];
      simpl; lia.
Qed.

Lemma page_chain_offsets headers pages : forall i b off,
  page_chain headers i b off pages -> 0 <= b ->
  off = sum_body (take (Z.to_nat b) headers) ->
  forall k (p : memory_page), pages !! k = Some p ->
    offset_bytes p = sum_body (take (Z.to_nat (begin p)) headers) /\
    offset_bytes p + size_bytes p = sum_body (take (Z.to_nat (end_ p + 1)) headers).
Proof.
  induction pages as [|p0 pages IH]; intros i b off Hc Hb Hoff k p Hk; [done|].
  destruct Hc as (Hi & Hb0 & Ho & Hr & Hu & Hs & Hbig & Hc).
  pose proof (range_sum_prefix headers b (end_ p0) ltac:(lia)) as Hpre.
  destruct k as [|k]; simpl in Hk.
  - injection Hk as <-. rewrite Hb0, Ho, Hs. split; [done | lia].
  - eapply (IH _ _ _ Hc); [lia | lia | exact Hk].
Qed.

Lemma page_chain_length headers pages : forall i b off,
  page_chain headers i b off pages ->
  Z.of_nat (length pages) <= Z.of_nat (length headers) - b.
Proof.
  induction pages as [|p0 pages IH]; intros i b off Hc; simpl in *; [lia|].
  destruct Hc as (_ & _ & _ & Hr & _ & _ & _ & Hc).
  specialize (IH _ _ _ Hc). lia.
Qed.

(** X1. The planner is greedy: a page is closed only because the first node of
    the next page would have taken it over [TARGET_PAGE_SIZE]. *)
Theorem plan_pages_greedy (w : binary_writer) (headers : list node_header) :
  headers <> [] -> wf_headers headers ->
  exists pages : list memory_page,
    plan_pages w headers = Ok pages /\
    forall i p q h,
      pages !! i = Some p -> pages !! S i = Some q ->
      headers !! Z.to_nat (begin q) = Some h ->
      TARGET_PAGE_SIZE < size_bytes p + body_size h.
Proof.
  intros Hne Hwf. destruct headers as [|h0 rest]; [done|].
  rewrite plan_pages_from. eexists; split; [done|].
  set (current := Build_memory_page _ _ _ _ _ _).
  apply (plan_from_greedy (h0 :: rest) Hwf rest [h0] current); try done.
  assert (is_uint32 (body_size h0)) as Hu.
  { destruct Hwf as [Hall _]. by inversion Hall. }
  unfold page_ok; simpl. repeat split; try lia; try apply Hu.
  rewrite (range_sum_single _ 0 h0); done.
Qed.

Lemma plan_pages_greedy_witness :
  mixed_headers <> [] /\ wf_headers mixed_headers /\
  exists pages, plan_pages fresh_writer mixed_headers = Ok pages /\
    length pages = 3%nat.
Proof.
  split; [done|]. split; [exact wf_mixed_headers|].
  destruct (plan_pages_greedy fresh_writer mixed_headers)
    as (pages & Hp & _); [done | exact wf_mixed_headers |].
  exists pages. split; [exact Hp|].
  vm_compute in Hp. injection Hp as <-. reflexivity.
Defined.

(** X2. The [offset_bytes] of a page is the total size of the bodies of all
    nodes before its first node, and the last page ends at the total size of
    all bodies. *)
Theorem plan_pages_offsets (w : binary_writer) (headers : list node_header) :
  headers <> [] -> wf_headers headers ->
  exists pages : list memory_page,
    plan_pages w headers = Ok pages /\
    (forall i p, pages !! i = Some p ->
       offset_bytes p = sum_body (take (Z.to_nat (begin p)) headers)) /\
    (forall final, last pages = Some final ->
       offset_bytes final + size_bytes final = sum_body headers).
Proof.
  intros Hne Hwf.
  destruct (plan_pages_chain w headers Hne Hwf) as (pages & Hplan & Hc).
  exists pages. split; [done|]. split.
  - intros i p Hi.
    by destruct (page_chain_offsets _ _ _ _ _ Hc ltac:(lia) eq_refl i p Hi).
  - intros final Hl. pose proof (page_chain_last _ _ _ _ _ _ Hc Hl) as Hend.
    rewrite last_lookup in Hl.
    destruct (page_chain_offsets _ _ _ _ _ Hc ltac:(lia) eq_refl _ _ Hl) as [_ ->].
    rewrite Hend, take_ge by lia. done.
Qed.

Lemma plan_pages_offsets_witness :
  mixed_headers <> [] /\ wf_headers mixed_headers /\
  exists pages, plan_pages fresh_writer mixed_headers = Ok pages /\
    offset_bytes <$> pages = [0; 1200000; 6200000].
Proof.
  split; [done|]. split; [exact wf_mixed_headers|].
  destruct (plan_pages_offsets fresh_writer mixed_headers)
    as (pages & Hp & _); [done | exact wf_mixed_headers |].
  exists pages. split; [exact Hp|].
  vm_compute in Hp. injection Hp as <-. reflexivity.
Defined.

(** X3. There are never more pages than nodes, and the plan is a single page
    exactly when there is one node or all bodies together fit the budget; in
    the latter case that page is persistent, covers every node, and the
    working set is the total body size. *)
Theorem plan_pages_single_page (w : binary_writer) (headers : list node_header) :
  headers <> [] -> wf_headers headers ->
  exists pages : list memory_page,
    plan_pages w headers = Ok pages /\
    (length pages <= length headers)%nat /\
    (length pages = 1%nat <->
       length headers = 1%nat \/ sum_body headers <= TARGET_PAGE_SIZE) /\
    (sum_body headers <= TARGET_PAGE_SIZE ->
       pages = [{| index := 0; type := persistent; begin := 0;
                   end_ := Z.of_nat (length headers) - 1;
                   offset_bytes := 0; size_bytes := sum_body headers |}] /\
       body_buffer_size (make_table pages) = sum_body headers).
Proof.
  intros Hne Hwf.
  destruct (plan_pages_chain w headers Hne Hwf) as (pages & Hplan & Hc).
  exists pages. split; [done|].
  assert (sum_body headers <= TARGET_PAGE_SIZE ->
          pages = [{| index := 0; type := persistent; begin := 0;
                      end_ := Z.of_nat (length headers) - 1;
                      offset_bytes := 0; size_bytes := sum_body headers |}])
    as Hfit.
  { intros Hsum. destruct headers as [|h0 rest]; [done|].
    rewrite plan_pages_from in Hplan. injection Hplan as <-.
    destruct Hwf as [Hall _]. inversion Hall as [|? ? Hh0 Hrest]; subst.
    unfold is_uint32 in Hh0. simpl in Hsum.
    destruct (plan_from_fits rest 1
                {| index := 0; type := persistent; begin := 0; end_ := 0;
                   offset_bytes := 0; size_bytes := body_size h0 |})
      as (p & Heq & Hi & Ht & Hb & Ho & Hs);
      [exact Hrest | simpl; lia | exact Hsum |].
    rewrite Heq in *. simpl in Hi, Ht, Hb, Ho, Hs.
    pose proof (page_chain_last _ _ _ _ _ p Hc eq_refl) as He.
    destruct p; simpl in *. by subst. }
  split; [pose proof (page_chain_length _ _ _ _ _ Hc); lia|].
  split; [split|].
  - intros Hone. destruct pages as [|p [|? ?]]; try done.
    destruct (page_chain_lookup _ _ _ _ _ 0%nat p Hc eq_refl)
      as (_ & _ & Hr & _ & Hs & Hbig).
    pose proof (page_chain_last _ _ _ _ _ p Hc eq_refl) as He.
    destruct (page_chain_head _ _ _ _ _ _ Hc) as (_ & Hb & _).
    destruct (decide (length headers = 1%nat)); [by left | right].
    destruct (decide (TARGET_PAGE_SIZE < size_bytes p)) as [Hgt|Hle].
    + specialize (Hbig Hgt). lia.
    + rewrite Hs, Hb, He in Hle. unfold range_sum in Hle.
      rewrite drop_0, take_ge in Hle by lia. lia.
  - intros [Hone|Hsum].
    + pose proof (page_chain_length _ _ _ _ _ Hc).
      destruct pages; [simpl in Hc; lia | simpl in *; lia].
    + by rewrite (Hfit Hsum).
  - intros Hsum. split; [by apply Hfit|]. rewrite (Hfit Hsum).
    pose proof (sum_body_bound headers (proj1 Hwf)) as [Hs _].
    unfold make_table, TARGET_PAGE_SIZE in *.
    cbn [foldl working_set_step type size_bytes body_buffer_size].
    rewrite Z.add_0_l, (wrap64_small (sum_body headers)) by lia.
    rewrite Z.add_0_r. apply wrap64_small. lia.
Qed.

Lemma plan_pages_single_page_witness :
  mixed_headers <> [] /\ wf_headers mixed_headers /\
  exists pages, plan_pages fresh_writer mixed_headers = Ok pages /\
    (length pages <= 3)%nat.
Proof.
  split; [done|]. split; [exact wf_mixed_headers|].
  destruct (plan_pages_single_page fresh_writer mixed_headers)
    as (pages & Hp & Hlen & _); [done | exact wf_mixed_headers |].
  exists pages. split; [exact Hp | exact Hlen].
Defined.

(** X4. Up to [KM_MAX_PAGES] node headers always pass the page cap:
    [write_pages] cannot fail on them. *)
Theorem write_pages_few_headers (w : binary_writer)
    (headers : list node_header) (nodes : list node) :
  headers <> [] -> wf_headers headers ->
  Z.of_nat (length headers) <= KM_MAX_PAGES ->
  exists pages,
    plan_pages w headers = Ok pages /\
    write_pages w headers nodes =
      Ok (foldl (fun wr page => write page wr) (write (make_table pages) w) pages).
Proof.
  intros Hne Hwf Hfew.
  destruct (plan_pages_chain w headers Hne Hwf) as (pages & Hplan & Hc).
  exists pages. split; [done|].
  rewrite (write_pages_unfold _ _ _ _ Hplan).
  pose proof (page_chain_length _ _ _ _ _ Hc).
  destruct (Z.leb_spec (Z.of_nat (length pages)) KM_MAX_PAGES); [done | lia].
Qed.

Lemma write_pages_few_headers_witness :
  exists w', write_pages fresh_writer mixed_headers [] = Ok w'.
Proof.
  destruct (write_pages_few_headers fresh_writer mixed_headers [])
    as (pages & _ & Hw); [done | exact wf_mixed_headers | vm_compute; discriminate |].
  eexists. exact Hw.
Defined.

(** * More on the writer and the page table block *)

Lemma length_le_bytes n : forall v, length (le_bytes n v) = n.
Proof. induction n as [|n IH]; intros v; simpl; [done | by rewrite IH]. Qed.

Lemma memory_page_to_bytes_length (p : memory_page) :
  Z.of_nat (length (to_bytes p)) = sizeof memory_page.
Proof.
  unfold to_bytes, sizeof, memory_page_blittable.
  by rewrite !length_app, !length_le_bytes.
Qed.

Lemma memory_page_table_to_bytes_length (t : memory_page_table) :
  Z.of_nat (length (to_bytes t)) = sizeof memory_page_table.
Proof.
  unfold to_bytes, sizeof, memory_page_table_blittable.
  by rewrite !length_app, !length_le_bytes.
Qed.

Lemma store_bytes_app a : forall b p (m : gmap Z byte),
  store_bytes p (a ++ b) m = store_bytes (p + Z.of_nat (length a)) b (store_bytes p a m).
Proof.
  induction a as [|x a IH]; intros b p m; simpl store_bytes.
  - by rewrite Z.add_0_r.
  - rewrite IH. f_equal. simpl length. lia.
Qed.

Lemma write_bytes_app a b w :
  write_bytes (a ++ b) w = write_bytes b (write_bytes a w).
Proof.
  unfold write_bytes. cbn [position stream].
  rewrite store_bytes_app, length_app. f_equal. lia.
Qed.

(** Records written one by one end up as one array. *)
Lemma write_each_array {T} `{Blittable T} (xs : list T) : forall w,
  foldl (fun wr x => write x wr) w xs = write_array xs w.
Proof.
  induction xs as [|x xs IH]; intros w; simpl.
  - unfold write_array, write_bytes. simpl. destruct w. simpl. f_equal. lia.
  - rewrite IH. unfold write_array, write. simpl. by rewrite write_bytes_app.
Qed.

Lemma concat_chunk_lookup {T} (f : T -> list byte) (n : nat) (xs : list T) :
  (forall x, length (f x) = n) ->
  forall (i : nat) x (k : nat) b,
    xs !! i = Some x -> f x !! k = Some b ->
    concat (f <$> xs) !! (i * n + k)%nat = Some b.
Proof.
  intros Hlen. induction xs as [|x0 xs IH]; intros i x k b Hi Hk; [done|].
  simpl. destruct i as [|i]; simpl in Hi.
  - injection Hi as <-. pose proof (lookup_lt_Some _ _ _ Hk).
    by rewrite lookup_app_l.
  - rewrite lookup_app_r by (rewrite Hlen; lia).
    rewrite Hlen. replace (S i * n + k - n)%nat with (i * n + k)%nat by lia.
    by apply (IH i x).
Qed.

Lemma concat_chunk_length {T} (f : T -> list byte) (n : nat) (xs : list T) :
  (forall x, length (f x) = n) ->
  length (concat (f <$> xs)) = (length xs * n)%nat.
Proof.
  intros Hlen. induction xs as [|x xs IH]; [done|].
  rewrite fmap_cons. cbn [concat length]. by rewrite length_app, Hlen, IH.
Qed.

(** X5. The block that [write_pages] writes: the table, then the page records
    in order, [sizeof(memory_page)] bytes each, and nothing outside the
    block.  With the full [KM_MAX_PAGES] pages the block is
    [sizeof(memory_page_table)] bytes longer than
    [sizeof(memory_page) * KM_MAX_PAGES]. *)
Theorem write_pages_layout (w : binary_writer) (headers : list node_header)
    (nodes : list node) (w' : binary_writer) :
  write_pages w headers nodes = Ok w' ->
  exists pages : list memory_page,
    plan_pages w headers = Ok pages /\
    position w' = position w + sizeof memory_page_table
                  + sizeof memory_page * Z.of_nat (length pages) /\
    (forall (i : nat) p (k : nat) b,
       pages !! i = Some p -> to_bytes p !! k = Some b ->
       stream w' !! (position w + sizeof memory_page_table
                     + sizeof memory_page * Z.of_nat i + Z.of_nat k) = Some b) /\
    (forall q, q < position w \/ position w' <= q ->
       stream w' !! q = stream w !! q) /\
    (Z.of_nat (length pages) = KM_MAX_PAGES ->
       position w' - position w
       = sizeof memory_page * KM_MAX_PAGES + sizeof memory_page_table).
Proof.
  intros Hw. destruct (plan_pages w headers) as [pages|] eqn:Hplan.
  2:{ unfold write_pages in Hw. by rewrite Hplan in Hw. }
  rewrite (write_pages_unfold _ _ _ _ Hplan) in Hw.
  destruct (_ <=? _); [injection Hw as <- | discriminate].
  exists pages. split; [done|].
  rewrite write_each_array. unfold write_array, write.
  pose proof (memory_page_table_to_bytes_length (make_table pages)) as Ht.
  assert (length (concat (to_bytes <$> pages)) = (length pages * 32)%nat) as Hc.
  { apply concat_chunk_length. intros p.
    pose proof (memory_page_to_bytes_length p) as Hp.
    change (sizeof memory_page) with 32 in Hp. lia. }
  change (sizeof memory_page) with 32 in *.
  change (sizeof memory_page_table) with 16 in *.
  assert (position (write_bytes (concat (to_bytes <$> pages))
                      (write_bytes (to_bytes (make_table pages)) w))
          = position w + 16 + 32 * Z.of_nat (length pages)) as Hpos.
  { unfold write_bytes at 1. cbn [position]. unfold write_bytes. cbn [position].
    rewrite Hc. lia. }
  split; [exact Hpos|]. split; [|split].
  - intros i p k b Hi Hk.
    assert (concat (to_bytes <$> pages) !! (i * 32 + k)%nat = Some b) as Hl.
    { by apply (concat_chunk_lookup to_bytes 32 pages) with (x := p). }
    pose proof (write_bytes_stored _
                  (write_bytes (to_bytes (make_table pages)) w) _ _ Hl) as Hs.
    rewrite <- Hs. f_equal. unfold write_bytes. cbn [position]. lia.
  - intros q Hq. rewrite Hpos in Hq.
    rewrite write_bytes_outside
      by (unfold write_bytes at 1 2; cbn [position]; lia).
    apply write_bytes_outside. lia.
  - intros H8. rewrite Hpos, H8. unfold KM_MAX_PAGES. lia.
Qed.

Lemma write_pages_layout_witness :
  exists w', write_pages fresh_writer ten_headers [] = Ok w' /\
    position w' = 176.
Proof.
  destruct (write_pages fresh_writer ten_headers []) as [w'|] eqn:Hw;
    [|vm_compute in Hw; discriminate].
  exists w'. split; [done|].
  destruct (write_pages_layout fresh_writer ten_headers [] w' Hw)
    as (pages & Hp & Hpos & _).
  vm_compute in Hp. injection Hp as <-. exact Hpos.
Defined.

(** * The emitter registry *)

(** X6. [register_emitter] follows [emplace]: the first emitter registered for
    an opcode stays, a later registration for the same opcode changes
    nothing and dispatch keeps calling the first one; other opcodes and the
    disabled set are untouched. *)
Theorem register_emitter_first_wins (G : registry) (op : Z) (e : emitter_t) :
  (g_emitters G !! op = None ->
     g_emitters (register_emitter op e G) !! op = Some e) /\
  (forall e0, g_emitters G !! op = Some e0 ->
     g_emitters (register_emitter op e G) = g_emitters G) /\
  (forall op', op' <> op ->
     g_emitters (register_emitter op e G) !! op' = g_emitters G !! op') /\
  g_disabled_emitters (register_emitter op e G) = g_disabled_emitters G /\
  (forall e' n context,
     runtime_opcode n = op -> g_emitters G !! op = None ->
     call_emitter (register_emitter op e' (register_emitter op e G)) n context
     = Ok (e n context)).
Proof.
  assert (g_emitters G !! op = None ->
          g_emitters (register_emitter op e G) !! op = Some e) as Hnew.
  { intros Hn. unfold register_emitter. simpl. rewrite Hn.
    apply lookup_insert_eq. }
  repeat apply conj.
  - exact Hnew.
  - intros e0 He0. unfold register_emitter. simpl. by rewrite He0.
  - intros op' Hne. unfold register_emitter. simpl.
    destruct (g_emitters G !! op); [done|]. by rewrite lookup_insert_ne.
  - reflexivity.
  - intros e' n context Hop Hn. unfold call_emitter. cbv zeta. rewrite Hop.
    unfold register_emitter at 1. cbn [g_emitters].
    rewrite (Hnew Hn). by rewrite (Hnew Hn).
Qed.

Lemma register_emitter_first_wins_witness :
  g_emitters (disable_emitter 3 {| g_emitters := ∅; g_disabled_emitters := ∅ |})
    !! 16 = None /\
  call_emitter
    (register_emitter 16 (sample_emitter 9) sample_registry)
    (sample_node 16) sample_context
  = Ok (sample_emitter 5 (sample_node 16) sample_context).
Proof.
  split; [reflexivity|].
  exact (proj2 (proj2 (proj2 (proj2
           (register_emitter_first_wins
              (disable_emitter 3 {| g_emitters := ∅; g_disabled_emitters := ∅ |})
              16 (sample_emitter 5)))))
           (sample_emitter 9) (sample_node 16) sample_context eq_refl eq_refl).
Defined.

Section RegistryFacts.
Context `{external_defs}.

(** X7. [disable_emitter] adds the opcode to the disabled set and leaves the
    emitters alone.  Afterwards dispatch of that opcode cannot fail, and
    [gencode] keeps no node of that opcode among its runtime nodes, whether
    or not an emitter is registered for it.  Nothing is ever re-enabled. *)
Theorem disable_emitter_drops_nodes (G : registry) (op : Z)
    (context : codegen_context) :
  (forall op', is_disabled (disable_emitter op G) op'
               = is_disabled G op' || bool_decide (op' = op)) /\
  g_emitters (disable_emitter op G) = g_emitters G /\
  (forall n ctx', runtime_opcode n = op ->
     call_emitter (disable_emitter op G) n ctx' =
       match g_emitters G !! op with
       | Some emitter => Ok (emitter n ctx')
       | None => Ok None
       end) /\
  (forall compute_sequence c mh pos w,
     gencode_prologue (disable_emitter op G) context compute_sequence
       = Ok (c, mh, pos, w) ->
     forall n, n ∈ cl_runtime_nodes c -> runtime_opcode n <> op) /\
  (forall op' e, is_disabled G op' = true ->
     is_disabled (register_emitter op e G) op' = true /\
     is_disabled (disable_emitter op G) op' = true).
Proof.
  assert (forall op', is_disabled (disable_emitter op G) op'
               = is_disabled G op' || bool_decide (op' = op)) as Hdis.
  { intros op'. unfold is_disabled, disable_emitter. cbn [g_disabled_emitters].
    destruct (decide (op' ∈ g_disabled_emitters G)) as [Hin|Hin],
      (decide (op' = op)) as [Heq|Heq];
      rewrite ?(bool_decide_eq_true_2 _ Hin), ?(bool_decide_eq_false_2 _ Hin),
        ?(bool_decide_eq_true_2 _ Heq), ?(bool_decide_eq_false_2 _ Heq); simpl.
    - apply bool_decide_eq_true_2, elem_of_union. by right.
    - apply bool_decide_eq_true_2, elem_of_union. by right.
    - apply bool_decide_eq_true_2, elem_of_union. left.
      by apply elem_of_singleton.
    - apply bool_decide_eq_false_2.
      intros [Hs|Hs]%elem_of_union; [by apply elem_of_singleton in Hs | done]. }
  repeat apply conj.
  - exact Hdis.
  - reflexivity.
  - intros n ctx' Hop. unfold call_emitter. cbv zeta. rewrite Hop.
    cbn [g_emitters disable_emitter].
    destruct (g_emitters G !! op); [done|].
    rewrite Hdis. rewrite (bool_decide_eq_true_2 (op = op)) by done.
    by rewrite orb_true_r.
  - intros compute_sequence c mh pos w Hpro n Hn Hop.
    destruct (gencode_prologue_spec _ _ _ _ _ _ _ Hpro) as (Hcl & _).
    apply classify_runtime_nodes in Hcl. simpl in Hcl. rewrite Hcl in Hn.
    apply list_elem_of_In, List.filter_In in Hn as [_ Hen].
    unfold enabled in Hen. rewrite Hdis, Hop in Hen.
    rewrite (bool_decide_eq_true_2 (op = op)) in Hen by done.
    by rewrite orb_true_r in Hen.
  - intros op' e Hd. split; [exact Hd|]. rewrite Hdis, Hd. reflexivity.
Qed.

End RegistryFacts.

Lemma disable_emitter_drops_nodes_witness :
  exists c mh pos w,
    gencode_prologue (disable_emitter 16 sample_registry) sample_context
      [sample_node 16; sample_node 3] = Ok (c, mh, pos, w) /\
    forall n, n ∈ cl_runtime_nodes c -> runtime_opcode n <> 16.
Proof.
  do 4 eexists. split; [reflexivity|].
  exact (proj1 (proj2 (proj2 (proj2
           (disable_emitter_drops_nodes sample_registry 16 sample_context))))
           [sample_node 16; sample_node 3] _ _ _ _ eq_refl).
Defined.

(** * The first loop of [gencode] *)

Section ClassifyFacts.
Context `{external_defs}.

Lemma has_allocation_spec context conn :
  has_allocation context conn =
  match allocations_ context !! conn_id conn with Some _ => true | None => false end.
Proof.
  unfold has_allocation. destruct (allocations_ context !! conn_id conn) eqn:Ha.
  - apply bool_decide_eq_true_2. eauto.
  - apply bool_decide_eq_false_2. by intros [? ?].
Qed.

(** One node of the first loop: what it adds, and when it fails. *)
Lemma classify_node_spec G context n c :
  (classifiable context n = true ->
   exists c', classify_node G context n c = Ok c' /\
     cl_constants c' = cl_constants c ++ (if is_constant_marker n then [n] else []) /\
     length (cl_inputs c') =
       (length (cl_inputs c) + if is_input_marker n then 1 else 0)%nat /\
     length (cl_input_shapes c') =
       (length (cl_input_shapes c) + if is_input_marker n then 1 else 0)%nat /\
     length (cl_outputs c') =
       (length (cl_outputs c) + if is_output_marker n then 1 else 0)%nat /\
     forall G' c0, same_tables c c0 ->
       exists c0', classify_node G' context n c0 = Ok c0' /\ same_tables c' c0') /\
  (classifiable context n = false ->
   classify_node G context n c = Fatal OutOfRange (writer_ context)).
Proof.
  unfold classifiable, classify_node, is_constant_marker, is_output_marker,
    is_input_marker, output_at, input_connection, get_allocation.
  rewrite ?has_allocation_spec.
  destruct (runtime_opcode n =? op_input_node); simpl.
  - destruct (node_outputs n !! 0%nat) as [conn|]; simpl.
    + rewrite has_allocation_spec.
      destruct (allocations_ context !! conn_id conn) as [alloc|]; simpl.
      * split; [intros _|done]. eexists. split; [reflexivity|].
        destruct (is_disabled G (runtime_opcode n)); simpl;
          rewrite ?app_nil_r, ?length_app; simpl;
          (repeat split; try done; try lia);
          intros G' c0 (Hi & Hs & Ho & Hc); eexists; (split; [reflexivity|]);
          destruct (is_disabled G' (runtime_opcode n)); unfold same_tables; simpl;
          by rewrite Hi, Hs, Ho, Hc.
      * split; [done|intros _]. reflexivity.
    + split; [done|intros _]. reflexivity.
  - destruct (runtime_opcode n =? op_output_node); simpl.
    + destruct (node_inputs n !! 0%nat) as [[conn|]|]; simpl.
      * rewrite has_allocation_spec.
        destruct (allocations_ context !! conn_id conn) as [alloc|]; simpl.
        -- split; [intros _|done]. eexists. split; [reflexivity|].
           destruct (is_disabled G (runtime_opcode n)); simpl;
             rewrite ?app_nil_r, ?length_app; simpl;
             (repeat split; try done; try lia);
             intros G' c0 (Hi & Hs & Ho & Hc); eexists; (split; [reflexivity|]);
             destruct (is_disabled G' (runtime_opcode n)); unfold same_tables; simpl;
             by rewrite Hi, Hs, Ho, Hc.
        -- split; [done|intros _]. reflexivity.
      * split; [done|intros _]. reflexivity.
      * split; [done|intros _]. reflexivity.
    + split; [intros _|done].
      destruct (runtime_opcode n =? op_constant); simpl;
        (eexists; split; [reflexivity|]);
        destruct (is_disabled G (runtime_opcode n)); simpl;
        rewrite ?app_nil_r, ?length_app; simpl;
        (repeat split; try done; try lia);
        intros G' c0 (Hi & Hs & Ho & Hc); eexists; (split; [reflexivity|]);
        destruct (is_disabled G' (runtime_opcode n)); unfold same_tables; simpl;
        by rewrite Hi, Hs, Ho, Hc.
Qed.

Lemma classify_spec G context compute_sequence : forall c,
  (forallb (classifiable context) compute_sequence = true ->
   exists c', classify G context compute_sequence c = Ok c' /\
     cl_constants c' =
       cl_constants c ++ List.filter is_constant_marker compute_sequence /\
     length (cl_inputs c') =
       (length (cl_inputs c)
        + length (List.filter is_input_marker compute_sequence))%nat /\
     length (cl_input_shapes c') =
       (length (cl_input_shapes c)
        + length (List.filter is_input_marker compute_sequence))%nat /\
     length (cl_outputs c') =
       (length (cl_outputs c)
        + length (List.filter is_output_marker compute_sequence))%nat /\
     forall G' c0, same_tables c c0 ->
       exists c0', classify G' context compute_sequence c0 = Ok c0' /\
         same_tables c' c0') /\
  (forallb (classifiable context) compute_sequence = false ->
   classify G context compute_sequence c = Fatal OutOfRange (writer_ context)).
Proof.
  induction compute_sequence as [|n rest IH]; intros c.
  - split; [intros _|done]. exists c. simpl. rewrite app_nil_r.
    repeat split; try lia. intros G' c0 Hs. by exists c0.
  - destruct (classify_node_spec G context n c) as [Hok Hbad].
    cbn [forallb classify].
    destruct (classifiable context n); simpl.
    + destruct (Hok eq_refl) as (c1 & -> & Hc1 & Hi1 & Hs1 & Ho1 & Hind1).
      cbv [mbind result_bind]. destruct (IH c1) as [IHok IHbad]. split.
      * intros Hrest.
        destruct (IHok Hrest) as (c' & -> & Hc & Hi & Hs & Ho & Hind).
        exists c'. split; [done|].
        rewrite Hc, Hc1, Hi, Hi1, Hs, Hs1, Ho, Ho1.
        destruct (is_constant_marker n), (is_input_marker n),
          (is_output_marker n); simpl;
          rewrite <- ?app_assoc, ?app_nil_r; simpl;
          (repeat split; try lia);
          intros G' c0 Hsame;
          destruct (Hind1 G' c0 Hsame) as (c0' & -> & Hsame');
          apply (Hind G' c0' Hsame').
      * intros Hrest. exact (IHbad Hrest).
    + split; [done|intros _]. by rewrite (Hbad eq_refl).
Qed.

(** X8. The first loop of [gencode] succeeds exactly when every marker node has
    the connector and the allocation it needs; otherwise the run ends with
    [out_of_range] before a byte is written. *)
Theorem classify_succeeds_iff (G : registry) (context : codegen_context)
    (compute_sequence : list node) :
  ((exists c, classify G context compute_sequence no_nodes = Ok c) <->
   forallb (classifiable context) compute_sequence = true) /\
  (forall e w, classify G context compute_sequence no_nodes = Fatal e w ->
     w = writer_ context /\ e = OutOfRange) /\
  (forallb (classifiable context) compute_sequence = false ->
   gencode G context compute_sequence = Fatal OutOfRange (writer_ context)).
Proof.
  destruct (classify_spec G context compute_sequence no_nodes) as [Hok Hbad].
  destruct (forallb (classifiable context) compute_sequence).
  - destruct (Hok eq_refl) as (c & Hc & _). repeat apply conj; try done.
    + by exists c.
    + intros e w Hf. congruence.
  - pose proof (Hbad eq_refl) as He. repeat apply conj; try done.
    + intros [c Hc]. congruence.
    + intros e' w Hf. rewrite He in Hf. by injection Hf as <- <-.
    + intros _. unfold gencode, gencode_prologue. by rewrite He.
Qed.

(** X9. The descriptor tables do not depend on the registry: an input, output
    or constant marker is counted whether or not its opcode is disabled.
    There is one input range and one input shape per input marker, one
    output range per output marker, and the constants are the constant
    markers in sequence order. *)
Theorem classify_tables (G : registry) (context : codegen_context)
    (compute_sequence : list node) (c : classification) :
  classify G context compute_sequence no_nodes = Ok c ->
  cl_constants c = List.filter is_constant_marker compute_sequence /\
  length (cl_inputs c) = length (List.filter is_input_marker compute_sequence) /\
  length (cl_input_shapes c) = length (cl_inputs c) /\
  length (cl_outputs c) = length (List.filter is_output_marker compute_sequence) /\
  inputs (make_model_header context c) =
    wrap32 (Z.of_nat (length (List.filter is_input_marker compute_sequence))) /\
  outputs (make_model_header context c) =
    wrap32 (Z.of_nat (length (List.filter is_output_marker compute_sequence))) /\
  forall G', exists c',
    classify G' context compute_sequence no_nodes = Ok c' /\ same_tables c c'.
Proof.
  intros Hc.
  destruct (classify_spec G context compute_sequence no_nodes) as [Hok Hbad].
  destruct (forallb (classifiable context) compute_sequence).
  - destruct (Hok eq_refl) as (c' & Hc' & Hcs & Hi & Hs & Ho & Hind).
    rewrite Hc in Hc'. injection Hc' as <-. simpl in *.
    unfold make_model_header. simpl. rewrite Hi, Ho.
    repeat split; try done; try lia.
    intros G'. apply Hind. by repeat split.
  - pose proof (Hbad eq_refl) as He. congruence.
Qed.

End ClassifyFacts.

Lemma classify_succeeds_iff_witness :
  forallb (classifiable sample_context) [sample_input_node] = false /\
  gencode sample_registry sample_context [sample_input_node]
  = Fatal OutOfRange fresh_writer.
Proof.
  assert (forallb (classifiable sample_context) [sample_input_node] = false)
    as Hbad by reflexivity.
  split; [exact Hbad|].
  exact (proj2 (proj2 (classify_succeeds_iff sample_registry sample_context
                         [sample_input_node])) Hbad).
Defined.

Lemma classify_tables_witness :
  exists c,
    classify sample_registry sample_context_with_constants
      [sample_input_node; sample_node 16; sample_constant_node] no_nodes = Ok c /\
    cl_constants c = [sample_constant_node] /\ length (cl_inputs c) = 1%nat.
Proof.
  destruct (classify sample_registry sample_context_with_constants
              [sample_input_node; sample_node 16; sample_constant_node] no_nodes)
    as [c|] eqn:Hcl; [|vm_compute in Hcl; discriminate].
  exists c. split; [reflexivity|].
  destruct (classify_tables sample_registry sample_context_with_constants
              [sample_input_node; sample_node 16; sample_constant_node] c Hcl)
    as (Hc & Hi & _).
  split; [exact Hc | exact Hi].
Defined.
(** * The constant pool *)

Section ConstantFacts.
Context `{external_defs}.

Lemma fill_constants_cons context n rest buf :
  fill_constants context (n :: rest) buf =
  match constant_range context n with
  | None => Fatal OutOfRange (writer_ context)
  | Some (s, l) =>
      fill_constants context rest (list_inserts s (constant_data n) buf)
  end.
Proof.
  unfold constant_range. cbn [fill_constants]. unfold output_at, get_allocation.
  destruct (node_outputs n !! 0%nat) as [conn|]; [|reflexivity].
  cbv [mbind result_bind].
  destruct (allocations_ context !! conn_id conn) as [alloc|]; reflexivity.
Qed.

Lemma constant_range_length context n s l :
  constant_range context n = Some (s, l) -> l = length (constant_data n).
Proof.
  unfold constant_range.
  destruct (node_outputs n !! 0%nat); [|discriminate].
  destruct (allocations_ context !! _); [|discriminate].
  by intros [= _ <-].
Qed.

Lemma fill_constants_spec context cs : forall buf buf',
  fill_constants context cs buf = Ok buf' ->
  length buf' = length buf /\
  (forall n, n ∈ cs -> is_Some (constant_range context n)) /\
  (forall i,
     (forall n s l, n ∈ cs -> constant_range context n = Some (s, l) ->
        ~ (s <= i < s + l)%nat) ->
     buf' !! i = buf !! i).
Proof.
  induction cs as [|n rest IH]; intros buf buf'.
  - intros [= <-]. split; [done|]. split; [|done].
    intros n Hn. by apply elem_of_nil in Hn.
  - rewrite fill_constants_cons.
    destruct (constant_range context n) as [[s l]|] eqn:Hr; [|discriminate].
    pose proof (constant_range_length _ _ _ _ Hr) as ->.
    intros Hrest. destruct (IH _ _ Hrest) as (Hlen & Hall & Hkeep).
    rewrite length_inserts in Hlen.
    split; [done|]. split.
    + intros m [->|Hm]%elem_of_cons; [by rewrite Hr | by apply Hall].
    + intros i Hfree. rewrite Hkeep.
      * assert (~ (s <= i < s + length (constant_data n))%nat) as Hout
          by (apply (Hfree n s _); [by left | done]).
        destruct (decide (i < s)%nat).
        -- by apply list_lookup_inserts_lt.
        -- apply list_lookup_inserts_ge. lia.
      * intros m s' l' Hm. apply Hfree. by right.
Qed.


Lemma fill_constants_fatal context cs : forall buf e w,
  fill_constants context cs buf = Fatal e w ->
  w = writer_ context /\ e = OutOfRange.
Proof.
  induction cs as [|n rest IH]; intros buf e w; [discriminate|].
  rewrite fill_constants_cons.
  destruct (constant_range context n) as [[s l]|]; [apply IH|].
  by intros [= <- <-].
Qed.


End ConstantFacts.


(** * More on the node bodies *)

Section BodyFacts.
Context `{external_defs}.
Variable G : registry.

(** The body loop only moves forward and leaves what lies before its start
    position. *)
Lemma emit_bodies_outside context runtime_nodes : forall w hs w1 hs1,
  emit_bodies G context runtime_nodes w hs = Ok (w1, hs1) ->
  position w <= position w1 /\
  forall q, q < position w -> stream w1 !! q = stream w !! q.
Proof.
  induction runtime_nodes as [|n rest IH]; intros w hs w1 hs1.
  - by intros [= <- <-].
  - rewrite emit_bodies_cons.
    destruct (call_emitter G n (with_writer context w)) as [[body|]|e w0];
      cbv [mbind result_bind]; [| |discriminate]; [|by apply IH].
    destruct (emit_body_spec body w hs) as (Hpos & _ & _ & _ & Hkeep & _).
    cbv zeta in Hpos, Hkeep. intros Hrest.
    destruct (IH _ _ _ _ Hrest) as (Hle & Hst). split; [lia|].
    intros q Hq. rewrite Hst by lia. by apply Hkeep.
Qed.

(** The end of the body loop in terms of the recorded sizes. *)
Lemma emit_bodies_span context runtime_nodes : forall w hs w1 hs1,
  emit_bodies G context runtime_nodes w hs = Ok (w1, hs1) ->
  exists new, hs1 = hs ++ new /\
    (position w1 - position w < 2 ^ 32 ->
     position w1 = position w + sum_body new).
Proof.
  induction runtime_nodes as [|n rest IH]; intros w hs w1 hs1.
  - intros [= <- <-]. exists []. rewrite app_nil_r. simpl. split; [done | lia].
  - rewrite emit_bodies_cons.
    destruct (call_emitter G n (with_writer context w)) as [[body|]|e w0];
      cbv [mbind result_bind]; [| |discriminate]; [|by apply IH].
    destruct (emit_body_spec body w hs) as (Hpos & _ & _ & _ & _ & Hhs).
    cbv zeta in Hpos, Hhs. rewrite Hhs. intros Hrest.
    destruct (emit_bodies_outside _ _ _ _ _ _ Hrest) as [Hle _].
    destruct (IH _ _ _ _ Hrest) as (new & -> & Hsum).
    eexists (_ :: new). split; [by rewrite <- app_assoc|].
    intros Hsmall. cbn [sum_body foldr body_size].
    rewrite wrap32_small by (unfold is_uint32; lia).
    change (foldr (fun h acc => body_size h + acc) 0 new) with (sum_body new).
    rewrite Hsum by lia. lia.
Qed.

(** X11. Bodies do not overwrite each other: a body written by the loop is still
    in the stream when the loop ends, its header is in the final header list
    at the place of its body, and the headers before it are the ones the loop
    had produced until then. *)
Theorem emit_bodies_keeps_bodies (context : codegen_context)
    (pre : list node) (n : node) (post : list node)
    (w : binary_writer) (hs : list node_header)
    (w1 : binary_writer) (hs1 : list node_header) (body : node_body)
    (w' : binary_writer) (hs' : list node_header) :
  emit_bodies G context pre w hs = Ok (w1, hs1) ->
  call_emitter G n (with_writer context w1) = Ok (Some body) ->
  emit_bodies G context (pre ++ n :: post) w hs = Ok (w', hs') ->
  (forall (k : nat) b, body_bytes body !! k = Some b ->
     stream w' !! (position w1 + Z.of_nat k) = Some b) /\
  (exists size, hs' !! length hs1 =
     Some {| opcode := body_opcode body; body_size := size |}) /\
  take (length hs1) hs' = hs1 /\
  position w1 + Z.of_nat (length (body_bytes body)) <= position w'.
Proof.
  intros Hpre Hcall Hall.
  rewrite emit_bodies_app, Hpre in Hall. cbv [mbind result_bind] in Hall.
  rewrite emit_bodies_cons, Hcall in Hall. cbv [mbind result_bind] in Hall.
  destruct (emit_body_spec body w1 hs1) as (Hpos & _ & Hbody & _ & _ & Hhs).
  cbv zeta in Hpos, Hbody, Hhs.
  destruct (emit_bodies_outside _ _ _ _ _ _ Hall) as [Hle Hkeep].
  destruct (emit_bodies_aligned _ _ _ _ _ _ _ Hall) as (new & -> & _).
  rewrite Hhs. repeat apply conj.
  - intros k b Hk. pose proof (lookup_lt_Some _ _ _ Hk).
    rewrite Hkeep by lia. by apply Hbody.
  - eexists. rewrite <- app_assoc. cbn [app]. by apply list_lookup_middle.
  - rewrite <- app_assoc. by rewrite take_app_length.
  - lia.
Qed.

(** X12. Page offsets are stream offsets.  When the body region is shorter than
    4 GiB, the loop ends at the start position plus the sum of the recorded
    body sizes, and this holds for every prefix of the node list; a page of
    the plan that begins with the next header then begins [offset_bytes]
    bytes after the start of the body region. *)
Theorem emit_bodies_positions (context : codegen_context)
    (pre post : list node) (w w1 w' : binary_writer)
    (hs1 hs' : list node_header) :
  emit_bodies G context pre w [] = Ok (w1, hs1) ->
  emit_bodies G context (pre ++ post) w [] = Ok (w', hs') ->
  position w' - position w < 2 ^ 32 ->
  position w' = position w + sum_body hs' /\
  position w1 = position w + sum_body (take (length hs1) hs') /\
  (Z.of_nat (length hs') < 2 ^ 32 ->
   forall wp pages i p,
     plan_pages wp hs' = Ok pages -> pages !! i = Some p ->
     begin p = Z.of_nat (length hs1) ->
     position w1 = position w + offset_bytes p).
Proof.
  intros Hpre Hall Hsmall.
  destruct (emit_bodies_span _ _ _ _ _ _ Hall) as (new & Hnew & Hsum).
  simpl in Hnew. subst new.
  rewrite emit_bodies_app, Hpre in Hall. cbv [mbind result_bind] in Hall.
  destruct (emit_bodies_outside _ _ _ _ _ _ Hall) as [Hle _].
  destruct (emit_bodies_outside _ _ _ _ _ _ Hpre) as [Hle1 _].
  destruct (emit_bodies_span _ _ _ _ _ _ Hpre) as (new1 & Hnew1 & Hsum1).
  simpl in Hnew1. subst new1.
  destruct (emit_bodies_aligned _ _ _ _ _ _ _ Hall) as (new & -> & _).
  assert (position w1 = position w + sum_body (take (length hs1) (hs1 ++ new)))
    as Hp1 by (rewrite take_app_length; apply Hsum1; lia).
  split; [by apply Hsum|]. split; [exact Hp1|].
  intros Hlen wp pages i p Hplan Hi Hb.
  assert (wf_headers (hs1 ++ new)) as Hwf.
  { split; [|done].
    pose proof (emit_bodies_uint32 _ _ _ _ _ _ _ Hpre (Forall_nil_2 _)) as Hu1.
    exact (emit_bodies_uint32 _ _ _ _ _ _ _ Hall Hu1). }
  assert (hs1 ++ new <> []) as Hne.
  { intros Hnil. rewrite Hnil in Hplan. discriminate. }
  destruct (plan_pages_chain wp _ Hne Hwf) as (pages' & Hplan' & Hc).
  rewrite Hplan in Hplan'. injection Hplan' as <-.
  destruct (page_chain_offsets _ _ _ _ _ Hc ltac:(lia) eq_refl i p Hi) as [Ho _].
  rewrite Ho, Hb, Nat2Z.id. exact Hp1.
Qed.

End BodyFacts.

Lemma emit_bodies_keeps_bodies_witness :
  exists w1 hs1 body w' hs',
    emit_bodies sample_registry sample_context [sample_node 16] fresh_writer []
      = Ok (w1, hs1) /\
    call_emitter sample_registry (sample_node 16) (with_writer sample_context w1)
      = Ok (Some body) /\
    emit_bodies sample_registry sample_context
      ([sample_node 16] ++ sample_node 16 :: [sample_node 16]) fresh_writer []
      = Ok (w', hs') /\
    stream w' !! (position w1 + 4) = Some Byte.xff.
Proof.
  do 5 eexists. split; [reflexivity|]. split; [reflexivity|].
  split; [reflexivity|].
  apply (proj1 (emit_bodies_keeps_bodies sample_registry sample_context
                  [sample_node 16] (sample_node 16) [sample_node 16]
                  fresh_writer [] _ _ _ _ _ eq_refl eq_refl eq_refl) 4%nat).
  reflexivity.
Defined.

Lemma emit_bodies_positions_witness :
  exists w1 hs1 w' hs',
    emit_bodies sample_registry sample_context [sample_node 16] fresh_writer []
      = Ok (w1, hs1) /\
    emit_bodies sample_registry sample_context
      ([sample_node 16] ++ [sample_node 16]) fresh_writer [] = Ok (w', hs') /\
    position w' - position fresh_writer < 2 ^ 32 /\
    position w' = position fresh_writer + sum_body hs'.
Proof.
  do 4 eexists. split; [reflexivity|]. split; [reflexivity|].
  assert (position
            (align_position 8
               (write_bytes (replicate 5 Byte.xff)
                  (align_position 8
                     (write_bytes (replicate 5 Byte.xff) fresh_writer))))
          - position fresh_writer < 2 ^ 32) as Hsmall by (vm_compute; reflexivity).
  split; [exact Hsmall|].
  exact (proj1 (emit_bodies_positions sample_registry sample_context
                  [sample_node 16] [sample_node 16] fresh_writer _ _ _ _
                  eq_refl eq_refl Hsmall)).
Defined.

(** * The output of [gencode] *)

(** What a successful [write_pages] leaves in the stream. *)
Lemma write_pages_stream w headers nodes w' :
  write_pages w headers nodes = Ok w' ->
  exists pages,
    plan_pages w headers = Ok pages /\
    Z.of_nat (length pages) <= KM_MAX_PAGES /\
    position w <= position w' /\
    (forall q, q < position w -> stream w' !! q = stream w !! q) /\
    (forall (k : nat) b, to_bytes (make_table pages) !! k = Some b ->
       stream w' !! (position w + Z.of_nat k) = Some b).
Proof.
  intros Hw. destruct (plan_pages w headers) as [pages|] eqn:Hplan.
  2:{ unfold write_pages in Hw. by rewrite Hplan in Hw. }
  rewrite (write_pages_unfold _ _ _ _ Hplan) in Hw.
  destruct (Z.leb_spec (Z.of_nat (length pages)) KM_MAX_PAGES);
    [injection Hw as <- | discriminate].
  exists pages. split; [done|]. split; [done|].
  assert (position w <= position (write (make_table pages) w)) as Hle
    by (unfold write, write_bytes; cbn [position]; lia).
  split; [|split].
  - destruct (write_each_outside pages (write (make_table pages) w)
                (position w - 1)) as [Hpos _]; lia.
  - intros q Hq.
    destruct (write_each_outside pages (write (make_table pages) w) q)
      as [_ ->]; [lia|].
    unfold write. apply write_bytes_outside. lia.
  - intros k b Hk. pose proof (lookup_lt_Some _ _ _ Hk).
    destruct (write_each_outside pages (write (make_table pages) w)
                (position w + Z.of_nat k)) as [_ ->].
    + unfold write, write_bytes. cbn [position]. lia.
    + by apply write_bytes_stored.
Qed.

Section OutputFacts.
Context `{external_defs}.
Variable G : registry.

Lemma constant_range_with_writer context w n :
  constant_range (with_writer context w) n = constant_range context n.
Proof. reflexivity. Qed.

Lemma fill_constants_with_writer context w cs : forall buf buf',
  fill_constants (with_writer context w) cs buf = Ok buf' ->
  fill_constants context cs buf = Ok buf'.
Proof.
  induction cs as [|n rest IH]; intros buf buf'; [done|].
  rewrite !fill_constants_cons, constant_range_with_writer.
  destruct (constant_range context n) as [[s l]|]; [apply IH | discriminate].
Qed.

(** The parts of a run of [gencode] that ends normally. *)
Lemma gencode_success context compute_sequence w' :
  gencode G context compute_sequence = Ok w' ->
  exists c pos w0 wb hs wp,
    gencode_prologue G context compute_sequence
      = Ok (c, make_model_header context c, pos, w0) /\
    emit_bodies G context (cl_runtime_nodes c) w0 [] = Ok (wb, hs) /\
    write_pages (write_array hs (set_position pos wb)) hs (cl_runtime_nodes c)
      = Ok wp /\
    w' = set_position (position wb) wp.
Proof.
  intros Hgen. unfold gencode in Hgen.
  destruct (gencode_prologue G context compute_sequence)
    as [[[[c mh] pos] w0]|] eqn:Hpro; [|discriminate].
  cbv [mbind result_bind] in Hgen.
  destruct (emit_bodies G context (cl_runtime_nodes c) w0 [])
    as [[wb hs]|] eqn:Hbodies; [|discriminate].
  destruct (gencode_prologue_spec _ _ _ _ _ _ _ Hpro) as (_ & -> & _).
  rewrite write_back_paged in Hgen.
  destruct (write_pages _ hs (cl_runtime_nodes c)) as [wp|] eqn:Hwp;
    [|discriminate].
  injection Hgen as <-. by exists c, pos, w0, wb, hs, wp.
Qed.

(** Where the prologue puts the model header and the constant pool. *)
Lemma gencode_prologue_layout context compute_sequence c mh pos w0 :
  gencode_prologue G context compute_sequence = Ok (c, mh, pos, w0) ->
  exists const_mem,
    fill_constants context (cl_constants c)
      (replicate (Z.to_nat (constant_usage context)) zero_byte) = Ok const_mem /\
    length const_mem = Z.to_nat (constant_usage context) /\
    pos = position (writer_ context)
          + Z.of_nat (length (to_bytes mh))
          + Z.of_nat (length (concat (to_bytes <$> cl_inputs c)))
          + Z.of_nat (length (concat (to_bytes <$> cl_input_shapes c)))
          + Z.of_nat (length (concat (to_bytes <$> cl_outputs c)))
          + Z.of_nat (length const_mem) /\
    position w0 = pos + sizeof node_header * Z.of_nat (length (cl_runtime_nodes c)) /\
    (forall (k : nat) b, to_bytes mh !! k = Some b ->
       stream w0 !! (position (writer_ context) + Z.of_nat k) = Some b) /\
    (forall (k : nat) b, const_mem !! k = Some b ->
       stream w0 !! (pos - Z.of_nat (length const_mem) + Z.of_nat k) = Some b).
Proof.
  intros Hpro.
  destruct (gencode_prologue_spec _ _ _ _ _ _ _ Hpro) as (_ & Hmh & Hpos & _ & Hhdr).
  unfold gencode_prologue in Hpro.
  destruct (classify G context compute_sequence no_nodes) as [c0|];
    cbv [mbind result_bind] in Hpro; [|discriminate].
  destruct (fill_constants _ _ _) as [const_mem|] eqn:Hfill; [|discriminate].
  injection Hpro as <- <- <- <-.
  exists const_mem. apply fill_constants_with_writer in Hfill.
  split; [exact Hfill|].
  destruct (fill_constants_spec _ _ _ _ Hfill) as (Hlen & _).
  rewrite length_replicate in Hlen.
  split; [exact Hlen|]. split.
  { unfold write_array, write, write_bytes. cbn [position]. lia. }
  split.
  { rewrite Hpos. change (page_bytes _) with 0. lia. }
  split; [exact Hhdr|].
  intros k b Hk. cbn [stream set_position].
  match goal with
  | |- stream (write_bytes const_mem ?wt) !! _ = _ =>
      rewrite <- (write_bytes_stored const_mem wt k b Hk)
  end.
  f_equal. unfold write_array, write, write_bytes. cbn [position]. lia.
Qed.

(** X13. The reserve-then-backfill never reaches back: whatever the prologue
    wrote before the node-header table (model header, descriptor tables,
    constant pool) is in the output unchanged, provided the size of a node
    header is not negative. *)
Theorem gencode_keeps_prologue (context : codegen_context)
    (compute_sequence : list node) (w' : binary_writer)
    (c : classification) (mh : model_header) (pos : Z) (w0 : binary_writer) :
  0 <= sizeof node_header ->
  gencode G context compute_sequence = Ok w' ->
  gencode_prologue G context compute_sequence = Ok (c, mh, pos, w0) ->
  (forall q, q < pos -> stream w' !! q = stream w0 !! q) /\
  (forall (k : nat) b, to_bytes mh !! k = Some b ->
     stream w' !! (position (writer_ context) + Z.of_nat k) = Some b) /\
  (exists const_mem,
     fill_constants context (cl_constants c)
       (replicate (Z.to_nat (constant_usage context)) zero_byte) = Ok const_mem /\
     Z.of_nat (length const_mem) = Z.max 0 (constant_usage context) /\
     forall (k : nat) b, const_mem !! k = Some b ->
       stream w' !! (pos - Z.of_nat (length const_mem) + Z.of_nat k) = Some b).
Proof.
  intros Hsz Hgen Hpro.
  destruct (gencode_success _ _ _ Hgen)
    as (c' & pos' & w0' & wb & hs & wp & Hpro' & Hbodies & Hwp & ->).
  rewrite Hpro in Hpro'. injection Hpro' as <- -> <- <-.
  destruct (gencode_prologue_layout _ _ _ _ _ _ Hpro)
    as (const_mem & Hfill & Hlen & Hposeq & Hw0 & Hhdr & Hconst).
  destruct (emit_bodies_outside _ _ _ _ _ _ _ Hbodies) as [_ Hkeepb].
  destruct (write_pages_stream _ _ _ _ Hwp) as (_ & _ & _ & _ & Hkeepp & _).
  assert (forall q, q < pos -> stream (set_position (position wb) wp) !! q
                               = stream w0 !! q) as Hkeep.
  { intros q Hq. cbn [stream set_position]. rewrite Hkeepp.
    - unfold write_array. rewrite write_bytes_outside by (simpl; lia).
      cbn [stream set_position]. apply Hkeepb. lia.
    - unfold write_array, write_bytes. cbn [position set_position]. lia. }
  split; [exact Hkeep|]. split.
  - intros k b Hk. pose proof (lookup_lt_Some _ _ _ Hk).
    rewrite Hkeep by lia. by apply Hhdr.
  - exists const_mem. split; [exact Hfill|]. split; [lia|].
    intros k b Hk. pose proof (lookup_lt_Some _ _ _ Hk).
    rewrite Hkeep by lia. by apply Hconst.
Qed.

(** X14. The node-header table is in the output at [node_headers_pos], one
    record per body in the order of the bodies. *)
Theorem gencode_node_header_table (context : codegen_context)
    (compute_sequence : list node) (w' : binary_writer) :
  gencode G context compute_sequence = Ok w' ->
  exists c mh pos w0 wb hs,
    gencode_prologue G context compute_sequence = Ok (c, mh, pos, w0) /\
    emit_bodies G context (cl_runtime_nodes c) w0 [] = Ok (wb, hs) /\
    (length hs <= length (cl_runtime_nodes c))%nat /\
    forall (k : nat) b, concat (to_bytes <$> hs) !! k = Some b ->
      stream w' !! (pos + Z.of_nat k) = Some b.
Proof.
  intros Hgen.
  destruct (gencode_success _ _ _ Hgen)
    as (c & pos & w0 & wb & hs & wp & Hpro & Hbodies & Hwp & ->).
  exists c, (make_model_header context c), pos, w0, wb, hs.
  split; [done|]. split; [done|]. split.
  { destruct (emit_bodies_aligned _ _ _ _ _ _ _ Hbodies) as (new & -> & Hlen & _).
    done. }
  intros k b Hk. pose proof (lookup_lt_Some _ _ _ Hk).
  destruct (write_pages_stream _ _ _ _ Hwp) as (_ & _ & _ & _ & Hkeepp & _).
  cbn [stream set_position]. rewrite Hkeepp.
  - unfold write_array.
    exact (write_bytes_stored _ (set_position pos wb) _ _ Hk).
  - unfold write_array, write_bytes. cbn [position set_position]. lia.
Qed.

(** X15. A run that ends normally has written at least one body and planned at
    most [KM_MAX_PAGES] pages; it leaves the writer where the last body
    ended, a multiple of 8. *)
Theorem gencode_final_position (context : codegen_context)
    (compute_sequence : list node) (w' : binary_writer) :
  gencode G context compute_sequence = Ok w' ->
  position w' mod 8 = 0 /\
  exists c mh pos w0 wb hs pages,
    gencode_prologue G context compute_sequence = Ok (c, mh, pos, w0) /\
    emit_bodies G context (cl_runtime_nodes c) w0 [] = Ok (wb, hs) /\
    position w' = position wb /\ position w0 <= position w' /\
    hs <> [] /\
    plan_pages (write_array hs (set_position pos wb)) hs = Ok pages /\
    Z.of_nat (length pages) <= KM_MAX_PAGES.
Proof.
  intros Hgen.
  destruct (gencode_success _ _ _ Hgen)
    as (c & pos & w0 & wb & hs & wp & Hpro & Hbodies & Hwp & ->).
  destruct (write_pages_stream _ _ _ _ Hwp) as (pages & Hplan & Hcap & _).
  assert (hs <> []) as Hne.
  { intros ->. discriminate. }
  destruct (emit_bodies_aligned _ _ _ _ _ _ _ Hbodies) as (new & Hnew & _ & _ & Hal).
  simpl in Hnew. subst new.
  destruct (emit_bodies_outside _ _ _ _ _ _ _ Hbodies) as [Hle _].
  split; [exact (Hal Hne)|].
  by exists c, (make_model_header context c), pos, w0, wb, hs, pages.
Qed.

(** X16. When every runtime node produced a body and a node header takes
    [sizeof(node_header)] bytes, the page table is written exactly where the
    body region begins: the first bytes of the body region hold the table
    in the output. *)
Theorem gencode_page_table_on_bodies (context : codegen_context)
    (compute_sequence : list node) (w' : binary_writer)
    (c : classification) (mh : model_header) (pos : Z) (w0 wb : binary_writer)
    (hs : list node_header) :
  (forall h : node_header, Z.of_nat (length (to_bytes h)) = sizeof node_header) ->
  gencode G context compute_sequence = Ok w' ->
  gencode_prologue G context compute_sequence = Ok (c, mh, pos, w0) ->
  emit_bodies G context (cl_runtime_nodes c) w0 [] = Ok (wb, hs) ->
  length hs = length (cl_runtime_nodes c) ->
  exists pages,
    plan_pages (write_array hs (set_position pos wb)) hs = Ok pages /\
    forall (k : nat) b, to_bytes (make_table pages) !! k = Some b ->
      stream w' !! (position w0 + Z.of_nat k) = Some b.
Proof.
  intros Hlaw Hgen Hpro Hbodies Hall.
  destruct (gencode_success _ _ _ Hgen)
    as (c' & pos' & w0' & wb' & hs' & wp & Hpro' & Hbodies' & Hwp & ->).
  rewrite Hpro in Hpro'. injection Hpro' as <- -> <- <-.
  rewrite Hbodies in Hbodies'. injection Hbodies' as <- <-.
  destruct (gencode_prologue_layout _ _ _ _ _ _ Hpro) as (_ & _ & _ & _ & Hw0 & _).
  destruct (write_pages_stream _ _ _ _ Hwp) as (pages & Hplan & _ & _ & _ & Htab).
  exists pages. split; [exact Hplan|].
  intros k b Hk. cbn [stream set_position]. rewrite <- (Htab k b Hk). f_equal.
  unfold write_array, write_bytes. cbn [position set_position].
  assert (Z.of_nat (length (concat (to_bytes <$> hs)))
          = sizeof node_header * Z.of_nat (length hs)) as Hc.
  { clear -Hlaw. induction hs as [|h hs IH]; [simpl; lia|].
    rewrite fmap_cons. cbn [concat]. rewrite length_app. cbn [length].
    specialize (Hlaw h). lia. }
  rewrite Hc, Hw0, Hall. lia.
Qed.

End OutputFacts.

Lemma gencode_keeps_prologue_witness :
  exists w' const_mem,
    gencode neutral_registry sample_context_with_constants sample_sequence = Ok w' /\
    fill_constants sample_context_with_constants [sample_constant_node]
      (replicate 8 zero_byte) = Ok const_mem /\
    Z.of_nat (length const_mem) = 8.
Proof.
  destruct (gencode neutral_registry sample_context_with_constants sample_sequence)
    as [w'|] eqn:Hgen; [|vm_compute in Hgen; discriminate].
  destruct (gencode_prologue neutral_registry sample_context_with_constants
              sample_sequence) as [[[[c mh] pos] w0]|] eqn:Hpro;
    [|vm_compute in Hpro; discriminate].
  assert (0 <= sizeof node_header) as Hsz by (vm_compute; discriminate).
  destruct (gencode_keeps_prologue neutral_registry sample_context_with_constants
              sample_sequence w' c mh pos w0 Hsz Hgen Hpro)
    as (_ & _ & const_mem & Hfill & Hlen & _).
  assert (cl_constants c = [sample_constant_node]) as Hc
    by (vm_compute in Hpro; by injection Hpro as <- _ _ _).
  rewrite Hc in Hfill. by exists w', const_mem.
Defined.

Lemma gencode_node_header_table_witness :
  exists w' (hs : list node_header),
    gencode neutral_registry sample_context_with_constants sample_sequence = Ok w' /\
    (length hs <= 1)%nat.
Proof.
  destruct (gencode neutral_registry sample_context_with_constants sample_sequence)
    as [w'|] eqn:Hgen; [|vm_compute in Hgen; discriminate].
  destruct (gencode_node_header_table neutral_registry
              sample_context_with_constants sample_sequence w' Hgen)
    as (c & mh & pos & w0 & wb & hs & Hpro & _ & Hlen & _).
  assert (cl_runtime_nodes c = [sample_node 16]) as Hc
    by (vm_compute in Hpro; by injection Hpro as <- _ _ _).
  rewrite Hc in Hlen. by exists w', hs.
Defined.

Lemma gencode_final_position_witness :
  exists w',
    gencode neutral_registry sample_context_with_constants sample_sequence = Ok w' /\
    position w' mod 8 = 0.
Proof.
  destruct (gencode neutral_registry sample_context_with_constants sample_sequence)
    as [w'|] eqn:Hgen; [|vm_compute in Hgen; discriminate].
  exists w'. split; [reflexivity|].
  exact (proj1 (gencode_final_position neutral_registry
                  sample_context_with_constants sample_sequence w' Hgen)).
Defined.

Lemma gencode_page_table_on_bodies_witness :
  exists w' c mh pos w0 wb hs pages,
    gencode neutral_registry sample_context_with_constants sample_sequence = Ok w' /\
    gencode_prologue neutral_registry sample_context_with_constants
      sample_sequence = Ok (c, mh, pos, w0) /\
    emit_bodies neutral_registry sample_context_with_constants
      (cl_runtime_nodes c) w0 [] = Ok (wb, hs) /\
    length hs = length (cl_runtime_nodes c) /\
    plan_pages (write_array hs (set_position pos wb)) hs = Ok pages.
Proof.
  destruct (gencode neutral_registry sample_context_with_constants sample_sequence)
    as [w'|] eqn:Hgen; [|vm_compute in Hgen; discriminate].
  destruct (gencode_prologue neutral_registry sample_context_with_constants
              sample_sequence) as [[[[c mh] pos] w0]|] eqn:Hpro;
    [|vm_compute in Hpro; discriminate].
  destruct (emit_bodies neutral_registry sample_context_with_constants
              (cl_runtime_nodes c) w0 []) as [[wb hs]|] eqn:Hbodies.
  2:{ vm_compute in Hpro. injection Hpro as <- _ _ <-.
      vm_compute in Hbodies. discriminate. }
  assert (length hs = length (cl_runtime_nodes c)) as Hall.
  { vm_compute in Hpro. injection Hpro as <- _ _ <-.
    vm_compute in Hbodies. by injection Hbodies as _ <-. }
  assert (forall h : node_header,
            Z.of_nat (length (to_bytes h)) = sizeof node_header) as Hlaw.
  { intros h. reflexivity. }
  destruct (gencode_page_table_on_bodies neutral_registry
              sample_context_with_constants sample_sequence w' c mh pos w0 wb hs
              Hlaw Hgen Hpro Hbodies Hall) as (pages & Hplan & _).
  by exists w', c, mh, pos, w0, wb, hs, pages.
Defined.

(** * How [gencode] fails *)

Section FailureFacts.
Context `{external_defs}.
Variable G : registry.

(** The body loop fails only in [call_emitter], on the first runtime node
    that has neither an emitter nor a disabled opcode; the bodies before it
    have been written. *)
Lemma emit_bodies_fatal context runtime_nodes : forall w hs e w1,
  emit_bodies G context runtime_nodes w hs = Fatal e w1 ->
  (exists n, n ∈ runtime_nodes /\
     g_emitters G !! runtime_opcode n = None /\
     is_disabled G (runtime_opcode n) = false /\
     e = EmitterNotFound (runtime_opcode n)) /\
  position w <= position w1 /\
  forall q, q < position w -> stream w1 !! q = stream w !! q.
Proof.
  induction runtime_nodes as [|n rest IH]; intros w hs e w1; [discriminate|].
  rewrite emit_bodies_cons.
  destruct (call_emitter G n (with_writer context w)) as [[body|]|e0 w0] eqn:Hcall;
    cbv [mbind result_bind].
  - destruct (emit_body_spec body w hs) as (Hpos & _ & _ & _ & Hkeep & _).
    cbv zeta in Hpos, Hkeep. intros Hrest.
    destruct (IH _ _ _ _ Hrest) as ((m & Hm & Hrest') & Hle & Hst).
    split; [exists m; split; [by right | done]|]. split; [lia|].
    intros q Hq. rewrite Hst by lia. by apply Hkeep.
  - intros Hrest. destruct (IH _ _ _ _ Hrest) as ((m & Hm & Hrest') & Hle & Hst).
    split; [exists m; split; [by right | done]|]. done.
  - intros [= <- <-]. unfold call_emitter in Hcall. cbv zeta in Hcall.
    destruct (g_emitters G !! runtime_opcode n) eqn:He; [discriminate|].
    destruct (is_disabled G (runtime_opcode n)) eqn:Hd; [discriminate|].
    injection Hcall as <- <-. split; [|done].
    exists n. split; [by left | done].
Qed.

(** The loop over the constants fails only at a constant whose output has
    no allocation. *)
Lemma fill_constants_fatal_cause context cs : forall buf e w,
  fill_constants context cs buf = Fatal e w ->
  exists n, n ∈ cs /\ constant_range context n = None.
Proof.
  induction cs as [|n rest IH]; intros buf e w; [discriminate|].
  rewrite fill_constants_cons.
  destruct (constant_range context n) as [[s l]|] eqn:Hr.
  - intros Hrest. destruct (IH _ _ _ Hrest) as (m & Hm & Hnone).
    exists m. split; [by right | done].
  - intros _. exists n. split; [by left | done].
Qed.

(** X17. What an error that [gencode] raises itself tells about the run.
    (An error raised inside an emitter, by [serialize] or by the stream is
    not an outcome of this embedding, which takes those calls to return;
    the statement is about the four errors below and no others.)
    - "Emitter for X not found": the sequence holds an enabled node of
      opcode X for which no emitter is registered.
    - [out_of_range]: either a marker of the first loop lacks the connector
      or the allocation it needs, and the writer is as it was; or the first
      loop passed and a constant marker of the sequence has no allocated
      output.
    - The failed page-count assertion: all bodies were written and the
      planner made more than [KM_MAX_PAGES] pages of their headers.
    - The read of [headers[0]] outside the vector: the body loop ended
      without a single header.
    In each case but the first kind of [out_of_range], the model header is
    in the stream that the run leaves behind. *)
Theorem gencode_error_causes (context : codegen_context)
    (compute_sequence : list node) (e : error) (w : binary_writer) :
  0 <= sizeof node_header ->
  gencode G context compute_sequence = Fatal e w ->
  match e with
  | EmitterNotFound op =>
      exists n, n ∈ compute_sequence /\ runtime_opcode n = op /\
        enabled G n = true /\ g_emitters G !! op = None
  | OutOfRange =>
      (forallb (classifiable context) compute_sequence = false /\
       w = writer_ context) \/
      (forallb (classifiable context) compute_sequence = true /\
       exists n, n ∈ compute_sequence /\ is_constant_marker n = true /\
         constant_range context n = None)
  | AssertionFailed =>
      exists c mh pos w0 wb hs pages,
        gencode_prologue G context compute_sequence = Ok (c, mh, pos, w0) /\
        emit_bodies G context (cl_runtime_nodes c) w0 [] = Ok (wb, hs) /\
        plan_pages (write_array hs (set_position pos wb)) hs = Ok pages /\
        KM_MAX_PAGES < Z.of_nat (length pages)
  | IndexOutOfBounds =>
      exists c mh pos w0 wb,
        gencode_prologue G context compute_sequence = Ok (c, mh, pos, w0) /\
        emit_bodies G context (cl_runtime_nodes c) w0 [] = Ok (wb, [])
  end /\
  (forallb (classifiable context) compute_sequence = true ->
   exists c,
     classify G context compute_sequence no_nodes = Ok c /\
     forall (k : nat) b, to_bytes (make_model_header context c) !! k = Some b ->
       stream w !! (position (writer_ context) + Z.of_nat k) = Some b).
Proof.
  intros Hsz Hgen.
  destruct (classify_spec G context compute_sequence no_nodes) as [Hok Hbad].
  destruct (forallb (classifiable context) compute_sequence) eqn:Hall.
  2:{ pose proof (Hbad eq_refl) as He0.
      unfold gencode, gencode_prologue in Hgen. rewrite He0 in Hgen.
      injection Hgen as <- <-. split; [by left | discriminate]. }
  destruct (Hok eq_refl) as (c & Hc & Hcs & _). simpl in Hcs.
  unfold gencode in Hgen.
  destruct (gencode_prologue G context compute_sequence)
    as [[[[c' mh] pos] w0]|e0 w00] eqn:Hpro.
  - destruct (gencode_prologue_spec _ _ _ _ _ _ _ Hpro) as (Hc' & Hmh & Hw0 & _).
    rewrite Hc in Hc'. injection Hc' as <-.
    destruct (gencode_prologue_layout _ _ _ _ _ _ _ Hpro)
      as (const_mem & _ & _ & Hposeq & Hw0' & Hhdr & _).
    cbv [mbind result_bind] in Hgen. subst mh.
    assert (forall k b, to_bytes (make_model_header context c) !! k = Some b ->
              position (writer_ context) + Z.of_nat k < pos) as Hbelow.
    { intros k b Hk. pose proof (lookup_lt_Some _ _ _ Hk). lia. }
    destruct (emit_bodies G context (cl_runtime_nodes c) w0 [])
      as [[wb hs]|e1 w1] eqn:Hbodies.
    + rewrite write_back_paged in Hgen.
      destruct (write_pages _ hs (cl_runtime_nodes c)) as [wp|e2 w2] eqn:Hwp;
        [discriminate|].
      cbv [mbind result_bind] in Hgen. injection Hgen as <- <-.
      destruct (write_pages_fatal _ _ _ _ _ Hwp) as (-> & Hcase & Hempty).
      destruct (emit_bodies_outside _ _ _ _ _ _ _ Hbodies) as [_ Hkeep].
      split.
      * destruct Hcase as [->| ->].
        -- rewrite (Hempty eq_refl) in Hbodies. by eexists _, _, _, _, _.
        -- destruct (plan_pages (write_array hs (set_position pos wb)) hs)
             as [pages|e3 w3] eqn:Hp.
           ++ rewrite (write_pages_unfold _ _ _ _ Hp) in Hwp.
              destruct (Z.leb_spec (Z.of_nat (length pages)) KM_MAX_PAGES);
                [discriminate|].
              by eexists _, _, _, _, _, _, pages.
           ++ destruct (plan_pages_fatal _ _ _ _ Hp) as (_ & -> & ->).
              unfold write_pages in Hwp. rewrite Hp in Hwp. discriminate.
      * intros _. exists c. split; [done|].
        intros k b Hk. specialize (Hbelow k b Hk).
        unfold write_array. rewrite write_bytes_outside by (simpl; lia).
        cbn [stream set_position]. rewrite Hkeep by lia. by apply Hhdr.
    + injection Hgen as <- <-.
      destruct (emit_bodies_fatal _ _ _ _ _ _ Hbodies)
        as ((n & Hn & He & Hd & ->) & _ & Hkeep).
      split.
      * exists n.
        apply classify_runtime_nodes in Hc. simpl in Hc. rewrite Hc in Hn.
        apply list_elem_of_In, List.filter_In in Hn as [Hin Hen].
        split; [by apply list_elem_of_In|]. done.
      * intros _. exists c. split; [done|].
        intros k b Hk. specialize (Hbelow k b Hk).
        rewrite Hkeep by lia. by apply Hhdr.
  - injection Hgen as <- <-.
    unfold gencode_prologue in Hpro. rewrite Hc in Hpro.
    cbv [mbind result_bind] in Hpro.
    destruct (fill_constants _ _ _) as [const_mem|e1 w1] eqn:Hfill; [discriminate|].
    injection Hpro as <- <-.
    destruct (fill_constants_fatal _ _ _ _ _ Hfill) as [-> ->].
    destruct (fill_constants_fatal_cause _ _ _ _ _ Hfill) as (n & Hn & Hnone).
    split.
    + right. split; [done|]. exists n.
      rewrite Hcs in Hn. apply list_elem_of_In, List.filter_In in Hn as [Hin Hm].
      split; [by apply list_elem_of_In|]. split; [done|].
      by rewrite constant_range_with_writer in Hnone.
    + intros _. exists c. split; [done|].
      intros k b Hk. pose proof (lookup_lt_Some _ _ _ Hk).
      cbn [writer_ with_writer]. unfold write_array, write.
      rewrite !write_bytes_outside by (simpl; lia).
      by apply write_bytes_stored.
Qed.

End FailureFacts.

Lemma gencode_error_causes_witness :
  exists w,
    gencode sample_registry sample_context
      [sample_node 16; sample_node 3; sample_node 17]
    = Fatal (EmitterNotFound 17) w /\
    (exists n, n ∈ [sample_node 16; sample_node 3; sample_node 17] /\
       runtime_opcode n = 17 /\ enabled sample_registry n = true /\
       g_emitters sample_registry !! 17 = None) /\
    stream w !! 8 = Some Byte.x02.
Proof.
  destruct (gencode sample_registry sample_context
              [sample_node 16; sample_node 3; sample_node 17])
    as [w'|e w] eqn:Hgen; [vm_compute in Hgen; discriminate|].
  assert (e = EmitterNotFound 17) as -> by (vm_compute in Hgen; by injection Hgen).
  exists w. split; [reflexivity|].
  assert (0 <= sizeof node_header) as Hsz by (vm_compute; discriminate).
  destruct (gencode_error_causes sample_registry sample_context _ _ _ Hsz Hgen)
    as [Hcause Hhdr].
  split; [exact Hcause|].
  destruct (Hhdr eq_refl) as (c & Hc & Hbytes).
  apply (Hbytes 8%nat). vm_compute in Hc. injection Hc as <-. reflexivity.
Defined.
